(** * ThreatKB client: a shallow embedding of [threatkb.py]

    The Python module is a thin client over an HTTP service.  Its functions
    are embedded as computations in a state-and-exception monad.  The state
    holds the store of mutable dictionary objects (so that aliasing of
    argument dictionaries and of default-argument dictionaries is visible),
    the trace of HTTP exchanges, the values handed to [print] and the number
    of clock readings taken so far.  Everything that lies outside the module
    (the remote service, [json], [datetime], the file system) is gathered in
    the class [World]. *)

From Stdlib Require Import ZArith String Ascii List Bool Lia.
From stdpp Require Import base option list strings pretty gmap.

Set Warnings "-register-all".
Local Open Scope string_scope.
Local Open Scope list_scope.

(** ** Python values *)

Module Py.

(** Values as [json.loads] produces them and as the client passes them
    around.  Floating point numbers are kept opaque: only whether the number
    is non-zero (which decides its truth value) and its text are recorded.
    [PyFile] is an open file object, as [attach] passes one for upload. *)
Inductive pyvalue : Type :=
| PyNone
| PyBool (b : bool)
| PyInt (n : Z)
| PyFloat (nonzero : bool) (repr : string)
| PyStr (s : string)
| PyList (items : list pyvalue)
| PyDict (entries : list (string * pyvalue))
| PyFile (path : string).

(** A dictionary with string keys: insertion ordered, one entry per key. *)
Abbreviation pydict := (list (string * pyvalue)).

Fixpoint dict_get (d : pydict) (k : string) : option pyvalue :=
  match d with
  | [] => None
  | (k', v) :: d' => if String.eqb k' k then Some v else dict_get d' k
  end.

(** [d[k] = v]: an existing key keeps its position, a new key goes last. *)
Fixpoint dict_set (k : string) (v : pyvalue) (d : pydict) : pydict :=
  match d with
  | [] => [(k, v)]
  | (k', v') :: d' =>
      if String.eqb k' k then (k, v) :: d' else (k', v') :: dict_set k v d'
  end.

(** [dict(pairs)] *)
Definition dict_of_pairs (kvs : list (string * pyvalue)) : pydict :=
  fold_left (fun d kv => dict_set kv.1 kv.2 d) kvs [].

Definition dict_keys (d : pydict) : list string := d.*1.

(** Truth value of an object, as [if x:] tests it. *)
Definition truthy (v : pyvalue) : bool :=
  match v with
  | PyNone => false
  | PyBool b => b
  | PyInt n => negb (n =? 0)%Z
  | PyFloat nz _ => nz
  | PyStr s => negb (String.eqb s EmptyString)
  | PyList l => match l with [] => false | _ => true end
  | PyDict d => match d with [] => false | _ => true end
  | PyFile _ => true
  end.

(** Exceptions, all of them subclasses of [Exception]. *)
Inductive exn : Type :=
| Exception (msg : string)
| TypeError
| KeyError (key : string)
| IndexError
| ValueError
| OverflowError
| UnboundLocalError (name : string)
| IOError (path : string)
| ConnectionError.

Inductive result (A : Type) : Type :=
| Ok (a : A)
| Raise (e : exn).
Arguments Ok {A} a.
Arguments Raise {A} e.

Definition rbind {A B} (r : result A) (k : A -> result B) : result B :=
  match r with
  | Ok a => k a
  | Raise e => Raise e
  end.

(** [o[k]] for a string key [k]. *)
Definition subscript (o : pyvalue) (k : string) : result pyvalue :=
  match o with
  | PyDict d =>
      match dict_get d k with
      | Some v => Ok v
      | None => Raise (KeyError k)
      end
  | _ => Raise TypeError
  end.

(** Texts are kept as their UTF-8 bytes.  A byte of the form 10xxxxxx goes
    on with the character that the byte before it belongs to. *)
Definition continues (c : ascii) : bool :=
  let n := nat_of_ascii c in ((128 <=? n) && (n <? 192))%nat.

Definition continued (s : string) : bool :=
  match s with
  | EmptyString => false
  | String c _ => continues c
  end.

(** The characters of a text, each with all its bytes. *)
Fixpoint characters (s : string) : list string :=
  match s with
  | EmptyString => []
  | String c s' =>
      match characters s' with
      | ch :: chs =>
          if continued s' then String c ch :: chs
          else String c EmptyString :: ch :: chs
      | [] => [String c EmptyString]
      end
  end.

(** [''.join(parts)] *)
Definition joined (parts : list string) : string :=
  foldr String.append EmptyString parts.

(** [len(s)] *)
Definition len (s : string) : nat := length (characters s).

Definition chars (s : string) : list pyvalue := PyStr <$> characters s.

(** The items that [for x in o] runs through. *)
Definition iterate (o : pyvalue) : result (list pyvalue) :=
  match o with
  | PyList l => Ok l
  | PyDict d => Ok (PyStr <$> dict_keys d)
  | PyStr s => Ok (chars s)
  | _ => Raise TypeError
  end.

Fixpoint map_result {A B} (f : A -> result B) (l : list A) : result (list B) :=
  match l with
  | [] => Ok []
  | x :: l' =>
      rbind (f x) (fun y => rbind (map_result f l') (fun ys => Ok (y :: ys)))
  end.

End Py.
Export Py.

(** ** The world outside the module, and the state of a run *)

Module Runtime.

(** Locations of dictionary objects in the store. *)
Abbreviation loc := nat.

(** What [session.request] is handed: the keyword arguments of the call,
    with the dictionaries read from the store at the time of the call. *)
Record request : Type := {
  req_method : string;
  req_url : string;
  req_params : pydict;
  req_json : pyvalue;
  req_files : option pydict;
  req_verify : bool;
  req_headers : pydict
}.

(** The attributes of the response object that the module reads. *)
Record response : Type := {
  status_code : Z;
  content : string
}.

(** One call of [session.request] and its outcome; [None] is a transport
    failure, which [requests] raises as an exception. *)
Abbreviation exchange := (request * option response)%type.

(** A point in time, in microseconds counted from [datetime.min]. *)
Abbreviation datetime := Z.

Class World : Type := {
  (** the remote service: its answer may depend on the earlier exchanges *)
  serve : list exchange -> request -> option response;
  (** [json.loads]; [None] when it raises *)
  json_loads : string -> option pyvalue;
  (** [json.dumps] *)
  json_dumps : pyvalue -> string;
  (** [datetime.strptime(s, "%Y-%m-%dT%H:%M:%S")]; [None] when it raises *)
  strptime : string -> option datetime;
  (** the successive readings of [datetime.now()] *)
  clock : nat -> datetime;
  (** whether [open(path, 'rb')] succeeds *)
  readable : string -> bool
}.

Record state : Type := {
  heap : gmap loc pydict;
  next : loc;
  log : list exchange;
  stdout : list pyvalue;
  ticks : nat
}.

Definition set_heap (h : gmap loc pydict) (st : state) : state :=
  {| heap := h; next := next st; log := log st; stdout := stdout st;
     ticks := ticks st |}.

(** The dictionary object at a location. *)
Definition obj (st : state) (a : loc) : pydict := heap st !!! a.

(** Computations: a result or an exception, and the state left behind. *)
Definition M (A : Type) : Type := state -> result A * state.

Definition ret {A} (a : A) : M A := fun st => (Ok a, st).

Definition raise {A} (e : exn) : M A := fun st => (Raise e, st).

Definition bind {A B} (m : M A) (k : A -> M B) : M B :=
  fun st =>
    match m st with
    | (Ok a, st') => k a st'
    | (Raise e, st') => (Raise e, st')
    end.

Definition lift {A} (r : result A) : M A := fun st => (r, st).

Notation "x <- c ;; k" := (bind c (fun x => k))
  (at level 100, c at next level, right associativity).
Notation "c ;;; k" := (bind c (fun _ => k))
  (at level 100, right associativity).

(** An argument is a reference to a dictionary object or an immutable value. *)
Inductive pyarg : Type :=
| Ref (a : loc)
| Imm (v : pyvalue).

Definition deref (st : state) (x : pyarg) : pyvalue :=
  match x with
  | Ref a => PyDict (obj st a)
  | Imm v => v
  end.

(** A dictionary display [{...}]: a new object. *)
Definition alloc (d : pydict) : M loc :=
  fun st =>
    (Ok (next st),
     {| heap := <[next st := d]> (heap st); next := S (next st);
        log := log st; stdout := stdout st; ticks := ticks st |}).

(** [a[k] = v] *)
Definition setitem (a : loc) (k : string) (v : pyvalue) : M unit :=
  fun st => (Ok tt, set_heap (<[a := dict_set k v (obj st a)]> (heap st)) st).

Definition print (v : pyvalue) : M unit :=
  fun st =>
    (Ok tt,
     {| heap := heap st; next := next st; log := log st;
        stdout := stdout st ++ [v]; ticks := ticks st |}).

(** [datetime.datetime.now()] *)
Definition datetime_now `{World} : M datetime :=
  fun st =>
    (Ok (clock (ticks st)),
     {| heap := heap st; next := next st; log := log st;
        stdout := stdout st; ticks := S (ticks st) |}).

Definition datetime_max : datetime := 3652059 * 86400 * 1000000 - 1.

(** [datetime.timedelta(days=n)], in microseconds. *)
Definition timedelta (days : Z) : result Z :=
  if (Z.abs days <=? 999999999)%Z then Ok (days * 86400000000)%Z
  else Raise OverflowError.

(** [t - delta] on a [datetime]. *)
Definition datetime_sub (t : datetime) (delta : Z) : result datetime :=
  if ((0 <=? t - delta) && (t - delta <=? datetime_max))%Z
  then Ok (t - delta)%Z
  else Raise OverflowError.

Definition loads `{World} (s : string) : result pyvalue :=
  match json_loads s with
  | Some v => Ok v
  | None => Raise ValueError
  end.

(** [session.request(method, url, params=.., json=.., [files=..,]
    verify=False, headers=..)] *)
Definition session_request `{World} (method url : string) (params : loc)
    (json : pyarg) (files : option loc) (headers : loc) : M response :=
  fun st =>
    let req := {| req_method := method; req_url := url;
                  req_params := obj st params;
                  req_json := deref st json;
                  req_files := obj st <$> files;
                  req_verify := false;
                  req_headers := obj st headers |} in
    let st' := {| heap := heap st; next := next st;
                  log := log st ++ [(req, serve (log st) req)];
                  stdout := stdout st; ticks := ticks st |} in
    match serve (log st) req with
    | Some r => (Ok r, st')
    | None => (Raise ConnectionError, st')
    end.

End Runtime.
Export Runtime.

(** ** class ThreatKB *)

Module Client.

(** The attributes set by [__init__].  [filter_on_keys] is [None] when the
    client was built from a [FILTER_KEYS] that was never set. *)
Record ThreatKB : Type := {
  host : string;
  token : string;
  secret_key : string;
  base_uri : string;
  use_https : bool;
  filter_on_keys : option (list string)
}.

(** Default arguments are evaluated once, when the class body runs: each
    dictionary default is one object, at a fixed location of the store. *)
Definition _request_uri_params : loc := 0.
Definition _request_files : loc := 1.
Definition _request_headers : loc := 2.
Definition get_params : loc := 3.
Definition update_json_data : loc := 4.
Definition create_json_data : loc := 5.
Definition create_files : loc := 6.

(** The state once the module is imported. *)
Definition import_state : state :=
  {| heap :=
       list_to_map
         [(_request_uri_params, []);
          (_request_files, []);
          (_request_headers,
             [("Content-Type", PyStr "application/json;charset=UTF-8")]);
          (get_params, []);
          (update_json_data, []);
          (create_json_data, []);
          (create_files, [])];
     next := 7; log := []; stdout := []; ticks := 0 |}.

(** An id argument: [None], an integer or a string. *)
Inductive pyid : Type :=
| IdNone
| IdInt (n : Z)
| IdStr (s : string).

Definition id_truthy (i : pyid) : bool :=
  match i with
  | IdNone => false
  | IdInt n => negb (n =? 0)%Z
  | IdStr s => negb (String.eqb s EmptyString)
  end.

(** [str(id_)] *)
Definition id_str (i : pyid) : string :=
  match i with
  | IdNone => "None"
  | IdInt n => pretty n
  | IdStr s => s
  end.

Definition auth_error : exn :=
  Exception "Invalid authentication token and secret key.".

Section Methods.
Context `{W : World}.
Variable self : ThreatKB.

Definition _request (method uri : string) (uri_params : option loc)
    (body : pyarg) (files headers : option loc) : M response :=
  let uri_params := default _request_uri_params uri_params in
  let files := default _request_files files in
  let headers := default _request_headers headers in
  setitem uri_params "token" (PyStr (token self)) ;;;
  setitem uri_params "secret_key" (PyStr (secret_key self)) ;;;
  let url := (if use_https self then "https" else "http") +:+ "://" +:+
             host self +:+ base_uri self +:+ uri in
  (* the debug log line has no effect on the state *)
  response <- (fun st =>
      if truthy (PyDict (obj st files))
      then session_request method url uri_params body (Some files) headers st
      else session_request method url uri_params body None headers st) ;;
  if (status_code response =? 401)%Z then raise auth_error
  else ret response.

(** The attempt inside [try:]. *)
Definition filter_output_try (output : string) : result pyvalue :=
  let project (o : pyvalue) : result pyvalue :=
    match filter_on_keys self with
    | None => Raise TypeError
    | Some keys =>
        rbind (map_result (subscript o) keys) (fun vs =>
        Ok (PyDict (dict_of_pairs (zip keys vs))))
    end in
  rbind (loads output) (fun o =>
  match o with
  | PyDict _ => project o
  | _ =>
      rbind (iterate o) (fun objs =>
      rbind (map_result project objs) (fun results =>
      Ok (PyList results)))
  end).

Definition filter_output (output : string) : pyvalue :=
  match filter_output_try output with
  | Ok v => v
  | Raise _ => PyStr output
  end.

Definition id_suffix (id_ : pyid) : string :=
  if id_truthy id_ then "/" +:+ id_str id_ else EmptyString.

Definition get (endpoint : string) (id_ : pyid) (params : option loc)
    : M string :=
  let params := default get_params params in
  r <- _request "GET" (endpoint +:+ id_suffix id_) (Some params)
         (Imm PyNone) None None ;;
  ret (content r).

Definition update (endpoint : string) (id_ : pyid)
    (json_data : option pyarg) : M string :=
  let json_data := default (Ref update_json_data) json_data in
  r <- _request "PUT" (endpoint +:+ id_suffix id_) None json_data
         None None ;;
  ret (content r).

(** ['/'.join([endpoint, id_])] *)
Definition join_id (endpoint : string) (id_ : pyid) : result string :=
  match id_ with
  | IdStr s => Ok (endpoint +:+ "/" +:+ s)
  | _ => Raise TypeError
  end.

Definition delete (endpoint : string) (id_ : pyid) : M bool :=
  uri <- lift (join_id endpoint id_) ;;
  r <- _request "DELETE" uri None (Imm PyNone) None None ;;
  ret (status_code r =? 200)%Z.

(** [None] is the Python [None] that a 412 gives. *)
Definition create (endpoint : string) (json_data : option pyarg)
    (files : option loc) : M (option string) :=
  let json_data := default (Ref create_json_data) json_data in
  let files := default create_files files in
  r <- (fun st =>
      if truthy (PyDict (obj st files))
      then _request "POST" endpoint None (Imm PyNone) (Some files) None st
      else _request "POST" endpoint None json_data None None st) ;;
  if (status_code r =? 412)%Z then ret None
  else ret (Some (content r)).

End Methods.

End Client.
Export Client.

(** ** class ThreatKBHelper *)

Module Helper.

Definition dq : string := String (ascii_of_nat 34) EmptyString.

Section Methods.
Context `{W : World}.
Variable self : ThreatKB.

(** The first matching id, or [None]. *)
Definition get_c2ips_id (ip : string) : M pyvalue :=
  params <- alloc [("searches",
                    PyStr ("{" +:+ dq +:+ "ip" +:+ dq +:+ ":" +:+
                           dq +:+ ip +:+ dq +:+ "}"))] ;;
  body <- get self "/c2ips" IdNone (Some params) ;;
  results <- lift (loads body) ;;
  total_count <- lift (subscript results "total_count") ;;
  if truthy total_count then
    data <- lift (subscript results "data") ;;
    items <- lift (iterate data) ;;
    match items with
    | item :: _ => lift (subscript item "id")
    | [] => ret PyNone
    end
  else ret PyNone.

Definition get_c2ips_comments (ip : string) : M pyvalue :=
  id_ <- get_c2ips_id ip ;;
  params <- alloc [("entity_type", PyInt 3); ("entity_id", id_)] ;;
  if truthy id_ then
    body <- get self "/comments" IdNone (Some params) ;;
    lift (loads body)
  else
    print (PyStr "IP not found") ;;;
    ret PyNone.

(** [datetime.strptime(v, "%Y-%m-%dT%H:%M:%S")] *)
Definition parse_date (v : pyvalue) : result datetime :=
  match v with
  | PyStr s =>
      match strptime s with
      | Some d => Ok d
      | None => Raise ValueError
      end
  | _ => Raise TypeError
  end.

(** The body of [for comment in comments:], and the [return False] after it. *)
Fixpoint squelch_loop (days : Z) (comments : list pyvalue) : M bool :=
  match comments with
  | [] => ret false
  | comment :: rest =>
      now <- datetime_now ;;
      delta <- lift (timedelta days) ;;
      check_date <- lift (datetime_sub now delta) ;;
      text <- lift (subscript comment "date_modified") ;;
      date_modified <- lift (parse_date text) ;;
      if (check_date <? date_modified)%Z then ret true
      else squelch_loop days rest
  end.

Definition squelch_check (ip : string) (days : Z) : M bool :=
  comments <- get_c2ips_comments ip ;;
  items <- lift (iterate comments) ;;
  squelch_loop days items.

End Methods.

End Helper.
Export Helper.

(** ** The command line *)

Module Cli.

Definition ENTITY_TYPES : pydict :=
  [("yara_rule", PyInt 1); ("c2dns", PyInt 2); ("c2ip", PyInt 3);
   ("task", PyInt 4)].

Definition nl : string := String (ascii_of_nat 10) EmptyString.

(** [params[0]] *)
Definition first (params : list string) : result string :=
  match params with
  | p :: _ => Ok p
  | [] => Raise IndexError
  end.

(** [help] builds the usage text and returns it; its [exit] argument is
    never read. *)
Definition help (params : list string) (extra_text : string) (exit : bool)
    : result string :=
  rbind (first params) (fun prog =>
  Ok (nl +:+
      "    " +:+ prog +:+ " <options> <command> " +:+ nl +:+
      "    " +:+ nl +:+
      "    Options:" +:+ nl +:+
      "      --filter-on-field: Object field to filter on. (EX: You only want the IDs of some search result)" +:+ nl +:+
      "    " +:+ nl +:+
      "    Commands:" +:+ nl +:+
      "      configure: Configure the cli api" +:+ nl +:+
      "      attach: attach a file to an artifact" +:+ nl +:+
      "      comments: comment on an artifact" +:+ nl +:+
      "      release: pull release data from a specific release" +:+ nl +:+
      "      search: search the database" +:+ nl +:+
      nl +:+
      "    " +:+ extra_text +:+ nl +:+
      "    ")).

Definition attach_usage (prog : string) : string :=
  prog +:+ " attach <artifact> <artifact_id> <file>" +:+ nl +:+
  "        " +:+ nl +:+
  "        artifact: yara_rule, c2dns, c2ip, task" +:+ nl +:+
  "        artifact_id: artifact id as an integer" +:+ nl +:+
  "        file: the file to attach to the entity".

Definition comment_usage (prog : string) : string :=
  prog +:+ " comment <artifact> <artifact_id> <comment>" +:+ nl +:+
  "        " +:+ nl +:+
  "        artifact: yara_rule, c2dns, c2ip, task" +:+ nl +:+
  "        artifact_id: artifact id as an integer" +:+ nl +:+
  "        comment: the comment to add to the artifact".

Definition search_usage (prog : string) : string :=
  prog +:+ " search <filter> <filter_text>" +:+ nl +:+
  "        " +:+ nl +:+
  "        filter: all, tag, state, category" +:+ nl +:+
  "        filter_text: text to filter on".

(** Reading a local variable: it is unbound when the assignment that would
    have bound it raised. *)
Definition load_local (name : string) (v : option string) : M string :=
  match v with
  | Some s => ret s
  | None => raise (UnboundLocalError name)
  end.

(** The [except Exception:] handlers of the commands: the usage text is
    built, [help] is called, and its return value is dropped. *)
Definition usage_handler (usage : string -> string) (params : list string)
    : M unit :=
  prog <- lift (first params) ;;
  _ <- lift (help params (usage prog) true) ;;
  ret tt.

Definition printable (r : option string) : pyvalue :=
  match r with
  | Some s => PyStr s
  | None => PyNone
  end.

Section Commands.
Context `{W : World}.
(** The global [THREATKB_CLI], as [initialize] leaves it. *)
Variable THREATKB_CLI : ThreatKB.

(** [open(file, 'rb')] *)
Definition open_rb (file : string) : M pyvalue :=
  if readable file then ret (PyFile file) else raise (IOError file).

Definition attach (params : list string) : M unit :=
  locals <- match drop 1 params with
            | [artifact; artifact_id; file] =>
                ret (Some artifact, Some artifact_id, Some file)
            | _ => usage_handler attach_usage params ;;; ret (None, None, None)
            end ;;
  let '(artifact, artifact_id, file) := locals in
  artifact <- load_local "artifact" artifact ;;
  artifact_id <- load_local "artifact_id" artifact_id ;;
  file <- load_local "file" file ;;
  handle <- open_rb file ;;
  files <- alloc [("entity_type", PyStr artifact);
                  ("entity_id", PyStr artifact_id);
                  ("file", handle)] ;;
  r <- create THREATKB_CLI "file_upload" None (Some files) ;;
  print (printable r).

Definition comment (params : list string) : M unit :=
  locals <- match drop 1 params with
            | [artifact; artifact_id; comment] =>
                ret (Some artifact, Some artifact_id, Some comment)
            | _ => usage_handler comment_usage params ;;; ret (None, None, None)
            end ;;
  let '(artifact, artifact_id, comment) := locals in
  comment <- load_local "comment" comment ;;
  artifact <- load_local "artifact" artifact ;;
  artifact_id <- load_local "artifact_id" artifact_id ;;
  let payload :=
    json_dumps
      (PyDict [("comment", PyStr comment);
               ("entity_type", default PyNone (dict_get ENTITY_TYPES artifact));
               ("entity_id", PyStr artifact_id)]) in
  r <- create THREATKB_CLI "comments" (Some (Imm (PyStr payload))) None ;;
  print (printable r).

Definition search (params : list string) : M unit :=
  locals <- match drop 1 params with
            | [filter_; filter_text] => ret (Some filter_, Some filter_text)
            | _ => usage_handler search_usage params ;;; ret (None, None)
            end ;;
  let '(filter_, filter_text) := locals in
  filter_ <- load_local "filter_" filter_ ;;
  filter_text <- load_local "filter_text" filter_text ;;
  query <- alloc [(filter_, PyStr filter_text)] ;;
  r <- get THREATKB_CLI "search" IdNone (Some query) ;;
  print (PyStr r).

End Commands.

End Cli.
Export Cli.

(** * Vocabulary of the statements *)

Module Vocabulary.

(** The exchanges that a computation adds to the trace. *)
Definition issued {A} (m : M A) (st : state) : list exchange :=
  drop (length (log st)) (log (m st).2).

(** The parameter dictionary once [_request] has written to it. *)
Definition with_credentials (self : ThreatKB) (d : pydict) : pydict :=
  dict_set "secret_key" (PyStr (secret_key self))
    (dict_set "token" (PyStr (token self)) d).

Definition credentials_set (self : ThreatKB) (a : loc) (st : state) : state :=
  set_heap (<[a := with_credentials self (obj st a)]> (heap st)) st.

Definition url_of (self : ThreatKB) (uri : string) : string :=
  (if use_https self then "https" else "http") +:+ "://" +:+
  host self +:+ base_uri self +:+ uri.

(** The keyword arguments of one [session.request] call. *)
Definition sent (method url : string) (a : loc) (body : pyarg)
    (files : option loc) (headers : loc) (st : state) : request :=
  {| req_method := method; req_url := url; req_params := obj st a;
     req_json := deref st body; req_files := obj st <$> files;
     req_verify := false; req_headers := obj st headers |}.

(** The same for [_request], which passes [files] only when it is not
    empty. *)
Definition built_request (self : ThreatKB) (method uri : string) (a : loc)
    (body : pyarg) (files headers : loc) (st : state) : request :=
  {| req_method := method; req_url := url_of self uri;
     req_params := obj st a;
     req_json := deref st body;
     req_files := match obj st files with
                  | [] => None
                  | _ => Some (obj st files)
                  end;
     req_verify := false;
     req_headers := obj st headers |}.

(** What [_request] makes of the answer. *)
Definition outcome_of (rep : option response) : result response :=
  match rep with
  | None => Raise ConnectionError
  | Some r => if (status_code r =? 401)%Z then Raise auth_error else Ok r
  end.

Definition logged (x : exchange) (st : state) : state :=
  {| heap := heap st; next := next st; log := log st ++ [x];
     stdout := stdout st; ticks := ticks st |}.

Definition printed (v : pyvalue) (st : state) : state :=
  {| heap := heap st; next := next st; log := log st;
     stdout := stdout st ++ [v]; ticks := ticks st |}.

(** The state after one reading of the clock. *)
Definition ticked (st : state) : state :=
  {| heap := heap st; next := next st; log := log st; stdout := stdout st;
     ticks := S (ticks st) |}.

Definition allocated (d : pydict) (st : state) : state :=
  {| heap := <[next st := d]> (heap st); next := S (next st);
     log := log st; stdout := stdout st; ticks := ticks st |}.

(** The request that [create] builds: the upload when [files] is not empty,
    the JSON payload otherwise. *)
Definition create_request (self : ThreatKB) (endpoint : string)
    (json_data : option pyarg) (files : option loc) (st : state) : request :=
  let st1 := credentials_set self _request_uri_params st in
  match obj st (default create_files files) with
  | [] => built_request self "POST" endpoint _request_uri_params
            (default (Ref create_json_data) json_data)
            _request_files _request_headers st1
  | _ => built_request self "POST" endpoint _request_uri_params (Imm PyNone)
            (default create_files files) _request_headers st1
  end.

(** The query parameters of [q] hold the session's token and secret key,
    and agree with the caller's dictionary on every other key. *)
Definition carries_credentials (self : ThreatKB) (caller : pydict)
    (q : request) : Prop :=
  dict_get (req_params q) "token" = Some (PyStr (token self)) /\
  dict_get (req_params q) "secret_key" = Some (PyStr (secret_key self)) /\
  forall k, k <> "token" -> k <> "secret_key" ->
    dict_get (req_params q) k = dict_get caller k.

(** The computation issues exactly one request, and that request carries
    the credentials over the dictionary at [a]. *)
Definition sends_with_credentials {A} (self : ThreatKB) (a : loc) (m : M A)
    (st : state) : Prop :=
  exists q rep,
    issued m st = [(q, rep)] /\ carries_credentials self (obj st a) q.

Definition raises_auth_error {A} (m : M A) (st : state) : Prop :=
  (m st).1 = Raise auth_error.

(** The computation issues exactly one request, and raises the
    authentication error exactly when the service answers that request with
    status 401. *)
Definition auth_error_on_401 `{World} {A} (m : M A) (st : state) : Prop :=
  exists q,
    issued m st = [(q, serve (log st) q)] /\
    (raises_auth_error m st <->
     exists r, serve (log st) q = Some r /\ status_code r = 401%Z).

(** The keys of [dict(zip(keys, ...))]: each key once, at the place of its
    first occurrence. *)
Fixpoint dedup_first (keys : list string) : list string :=
  match keys with
  | [] => []
  | k :: keys' => k :: filter (fun k' => k' <> k) (dedup_first keys')
  end.

Definition has_keys (keys : list string) (d : pydict) : Prop :=
  forall k, k ∈ keys -> is_Some (dict_get d k).

(** [d'] holds exactly the requested keys, in the order of the key list,
    with the values that [d] has for them. *)
Definition projection (keys : list string) (d d' : pydict) : Prop :=
  dict_keys d' = dedup_first keys /\
  forall k, k ∈ keys -> dict_get d' k = dict_get d k.

(** The [date_modified] timestamp of a comment, when it has one that
    [strptime] reads. *)
Definition stamp `{World} (c : pyvalue) : option datetime :=
  match subscript c "date_modified" with
  | Ok (PyStr s) => strptime s
  | _ => None
  end.

(** The comment was modified after [now] minus [days] days. *)
Definition recent `{World} (days : Z) (now : datetime) (c : pyvalue) : Prop :=
  exists d, stamp c = Some d /\ (now - days * 86400000000 < d)%Z.

(** [now - timedelta(days)] is a date that [datetime] can represent. *)
Definition window_ok (days : Z) (now : datetime) : Prop :=
  (Z.abs days <= 999999999 /\
   0 <= now - days * 86400000000 <= datetime_max)%Z.

End Vocabulary.
Export Vocabulary.

(** * A scripted world, to run the functions on concrete inputs *)

Module Demo.

Definition quoted (s : string) : string := dq +:+ s +:+ dq.

(** A compact encoder, for texts without characters that need escaping. *)
Fixpoint encode (v : pyvalue) : string :=
  match v with
  | PyNone => "null"
  | PyBool b => if b then "true" else "false"
  | PyInt n => pretty n
  | PyFloat _ r => r
  | PyStr s => quoted s
  | PyList l =>
      "[" +:+
      (fix items (l : list pyvalue) : string :=
         match l with
         | [] => EmptyString
         | [x] => encode x
         | x :: l' => encode x +:+ ", " +:+ items l'
         end) l +:+ "]"
  | PyDict d =>
      "{" +:+
      (fix entries (d : pydict) : string :=
         match d with
         | [] => EmptyString
         | [(k, x)] => quoted k +:+ ": " +:+ encode x
         | (k, x) :: d' => quoted k +:+ ": " +:+ encode x +:+ ", " +:+ entries d'
         end) d +:+ "}"
  | PyFile path => quoted path
  end.

Fixpoint assoc {A} (k : string) (table : list (string * A)) : option A :=
  match table with
  | [] => None
  | (k', a) :: table' => if String.eqb k' k then Some a else assoc k table'
  end.

(** The service answers by URL from [routes] and fails to connect for any
    other URL; [json.loads] reads the documents of [documents]; [strptime]
    reads the dates of [dates]; the clock stands at [now]. *)
Definition world (routes : list (string * response))
    (documents : list (string * pyvalue)) (dates : list (string * datetime))
    (now : datetime) : World :=
  {| serve := fun _ q => assoc (req_url q) routes;
     json_loads := fun s => assoc s documents;
     json_dumps := encode;
     strptime := fun s => assoc s dates;
     clock := fun _ => now;
     readable := fun _ => true |}.

Definition client : ThreatKB :=
  {| host := "127.0.0.1:9000/"; token := "t0k3n"; secret_key := "s3cr3t";
     base_uri := "ThreatKB/"; use_https := false;
     filter_on_keys := Some ["id"; "name"] |}.

Definition base : string := "http://127.0.0.1:9000/ThreatKB/".

Definition ok (body : string) : response :=
  {| status_code := 200; content := body |}.

(** Response bodies, and what they parse to. *)
Definition no_match : string :=
  "{" +:+ quoted "total_count" +:+ ": 0, " +:+ quoted "data" +:+ ": []}".
Definition one_match : string :=
  "{" +:+ quoted "total_count" +:+ ": 1, " +:+ quoted "data" +:+ ": [{" +:+
  quoted "id" +:+ ": 7}]}".
Definition two_comments : string :=
  "[{" +:+ quoted "date_modified" +:+ ": " +:+
  quoted "2025-12-01T09:00:00" +:+ "}, {" +:+ quoted "date_modified" +:+
  ": " +:+ quoted "2026-01-11T08:30:00" +:+ "}]".
Definition rule_text (n name extra : string) : string :=
  "{" +:+ quoted "id" +:+ ": " +:+ n +:+ ", " +:+ quoted "name" +:+ ": " +:+
  quoted name +:+ ", " +:+ quoted "extra" +:+ ": " +:+ quoted extra +:+ "}".
Definition one_rule : string := rule_text "1" "x" "y".
Definition two_rules : string :=
  "[" +:+ rule_text "1" "x" "y" +:+ ", " +:+ rule_text "2" "z" "w" +:+ "]".
Definition partial_rule : string := "{" +:+ quoted "id" +:+ ": 1}".

Definition rule (n : Z) (name extra : string) : pydict :=
  [("id", PyInt n); ("name", PyStr name); ("extra", PyStr extra)].

Definition documents : list (string * pyvalue) :=
  [(no_match, PyDict [("total_count", PyInt 0); ("data", PyList [])]);
   (one_match,
      PyDict [("total_count", PyInt 1);
              ("data", PyList [PyDict [("id", PyInt 7)]])]);
   (two_comments,
      PyList [PyDict [("date_modified", PyStr "2025-12-01T09:00:00")];
              PyDict [("date_modified", PyStr "2026-01-11T08:30:00")]]);
   (one_rule, PyDict (rule 1 "x" "y"));
   (two_rules, PyList [PyDict (rule 1 "x" "y"); PyDict (rule 2 "z" "w")]);
   (partial_rule, PyDict [("id", PyInt 1)])].

Definition dates : list (string * datetime) :=
  [("2025-12-01T09:00:00", 63900176400000000%Z);
   ("2026-01-11T08:30:00", 63903717000000000%Z)].

(** 2026-01-12T00:00:00 *)
Definition now : datetime := 63903772800000000%Z.

(** The ip is unknown to the service. *)
Definition unknown_ip : World :=
  world [(base +:+ "/c2ips", ok no_match)] documents dates now.

(** The ip is known, and has two comments. *)
Definition known_ip : World :=
  world [(base +:+ "/c2ips", ok one_match);
         (base +:+ "/comments", ok two_comments)] documents dates now.

(** The service answers every [comments] request with the given status. *)
Definition answering (status : Z) : World :=
  world [(base +:+ "comments", {| status_code := status; content := "body" |})]
    documents dates now.

(** A caller's dictionary, allocated after the import. *)
Definition batch : pydict := [("batch", PyList [PyInt 1; PyInt 2])].
Definition with_batch : state := (alloc batch import_state).2.

End Demo.

(** * The rest of the module *)

(** ** class ThreatKBHelper: rules and deletions *)

Module Rules.

(** [o[k] = v] on a parsed value, for a string key [k]. *)
Definition assign (o : pyvalue) (k : string) (v : pyvalue) : result pyvalue :=
  match o with
  | PyDict d => Ok (PyDict (dict_set k v d))
  | _ => Raise TypeError
  end.

Section Methods.
Context `{W : World}.
Variable self : ThreatKB.

Definition get_rule (rule_id : pyid) : M pyvalue :=
  body <- get self "/yara_rules" rule_id None ;;
  lift (loads body).

(** The ids of the rules of that name, in the order of the answer. *)
Definition get_rule_id_by_name (name : string) : M (list pyvalue) :=
  params <- alloc [("searches",
                    PyStr ("{" +:+ dq +:+ "name" +:+ dq +:+ ": " +:+
                           dq +:+ name +:+ dq +:+ "}"))] ;;
  body <- get self "/yara_rules" IdNone (Some params) ;;
  results <- lift (loads body) ;;
  total_count <- lift (subscript results "total_count") ;;
  if truthy total_count then
    data <- lift (subscript results "data") ;;
    items <- lift (iterate data) ;;
    lift (map_result (fun item => subscript item "id") items)
  else ret [].

Definition delete_rule (rule_id : pyid) : M bool :=
  delete self "/yara_rules" rule_id.

Definition delete_rule_batch (rule_ids : pyvalue) : M string :=
  json_data <- alloc [("batch", rule_ids)] ;;
  update self "/yara_rules/delete" IdNone (Some (Ref json_data)).

(** [None] is the Python [None] of the path without a [return]. *)
Definition delete_rule_by_name (name : string) : M (option string) :=
  ids <- get_rule_id_by_name name ;;
  if truthy (PyList ids) then
    r <- delete_rule_batch (PyList ids) ;;
    ret (Some r)
  else ret None.

Definition discard_rule (rule_id : pyid) : M string :=
  rule <- get_rule rule_id ;;
  rule <- lift (assign rule "state" (PyStr "Discarded")) ;;
  update self "/yara_rules" rule_id (Some (Imm (PyStr (json_dumps rule)))).

Definition delete_c2dns (id_ : pyid) : M bool := delete self "/c2dns" id_.

Definition delete_c2ips (id_ : pyid) : M bool := delete self "/c2ips" id_.

End Methods.

End Rules.
Export Rules.

(** ** Construction of the client, credentials, and [main] *)

Module Startup.

(** [str.lower], which follows the character tables of the language and
    is taken as given. *)
Class Text : Type := {
  lower : string -> string
}.

(** [s.replace(old, new)] for a non-empty [old]: the occurrences of [old]
    are found from the left, the characters of one occurrence ([skip] counts
    those still to pass) take no part in the next. *)
Fixpoint replace_from (old new : string) (skip : nat) (s : string) : string :=
  match s with
  | EmptyString => EmptyString
  | String c s' =>
      match skip with
      | S k => replace_from old new k s'
      | O =>
          if String.prefix old s
          then new +:+ replace_from old new (String.length old - 1) s'
          else String c (replace_from old new 0 s')
      end
  end.

Definition replace (old new s : string) : string := replace_from old new 0 s.

(** [s.endswith(suffix)] *)
Definition endswith (suffix s : string) : bool :=
  bool_decide (list_ascii_of_string suffix `suffix_of` list_ascii_of_string s).

(** [ThreatKB.__init__]; [base_uri] and [use_https] have the defaults
    ['ThreatKB/'] and [False], which callers pass as [None]. *)
Definition __init__ `{Text} (host token secret_key : string)
    (filter_on_keys : option (list string)) (base_uri : option string)
    (use_https : option bool) : ThreatKB :=
  {| Client.host :=
       replace "https://" EmptyString
         (replace "http://" EmptyString (lower host));
     Client.token := token;
     Client.secret_key := secret_key;
     Client.base_uri := default "ThreatKB/" base_uri;
     Client.use_https := default false use_https;
     Client.filter_on_keys := filter_on_keys |}.

(** The module's global variables. *)
Record module_globals : Type := {
  API_KEY : option string;
  SECRET_KEY : option string;
  API_HOST : option string;
  THREATKB_CLI : option ThreatKB;
  FILTER_KEYS : option (list string)
}.

(** Their values once the module is imported. *)
Definition globals_at_import : module_globals :=
  {| API_KEY := None; SECRET_KEY := None; API_HOST := None;
     THREATKB_CLI := None; FILTER_KEYS := None |}.

Definition stars (n : nat) : string :=
  string_of_list_ascii (replicate n (ascii_of_nat 42)).

(** [x[-3:]] *)
Definition last_three (x : string) : string :=
  joined (drop (len x - 3) (characters x)).

(** What [configure] shows of a stored value [x]:
    ["%s%s" % ("*" * (len(x) - 3), x[-3:]) if x else "*" * 10]. *)
Definition masked (x : option string) : string :=
  match x with
  | Some s =>
      if truthy (PyStr s) then stars (len s - 3) +:+ last_three s
      else stars 10
  | None => stars 10
  end.

Section Credentials.
Context `{T : Text}.
(** [config.get("default", key)] on the credentials file; [None] when it
    raises (no file, no section, no such key). *)
Variable config_get : string -> option string.

(** [initialize]; [prog] is [sys.argv[0]]. *)
Definition initialize (prog : string) (g : module_globals)
    : result module_globals :=
  match config_get "token" with
  | Some API_TOKEN =>
      match config_get "secret_key" with
      | Some API_SECRET_KEY =>
          match config_get "api_host" with
          | Some api_host =>
              let api_host :=
                if endswith "/" api_host then api_host
                else api_host +:+ "/" in
              Ok {| API_KEY := API_KEY g; SECRET_KEY := SECRET_KEY g;
                    API_HOST := Some api_host;
                    THREATKB_CLI :=
                      Some (__init__ api_host API_TOKEN API_SECRET_KEY
                              (FILTER_KEYS g) None
                              (Some (if String.prefix "http://" api_host
                                     then false else true)));
                    FILTER_KEYS := FILTER_KEYS g |}
          | None =>
              Raise (Exception ("Error. Run 'python " +:+ prog +:+
                                " configure' first."))
          end
      | None =>
          Raise (Exception ("Error. Run 'python " +:+ prog +:+
                            " configure' first."))
      end
  | None =>
      Raise (Exception ("Error. Run 'python " +:+ prog +:+
                        " configure' first."))
  end.

(** The three prompts of [configure], in the order they are shown: the
    attempt to [initialize] comes first and its failure is ignored. *)
Definition configure_prompts (prog : string) (g : module_globals)
    : list string :=
  let g := match initialize prog g with
           | Ok g' => g'
           | Raise _ => g
           end in
  ["Token [" +:+ masked (API_KEY g) +:+ "]: ";
   "Secret Key [" +:+ masked (SECRET_KEY g) +:+ "]: ";
   "API Host [" +:+ masked (API_HOST g) +:+ "]: "].

End Credentials.

Section Commands.
Context `{W : World}.
Variable cli : ThreatKB.

Definition release (params : list string) : M unit :=
  let release_id := match params !! 1 with
                    | Some s => IdStr s
                    | None => IdNone
                    end in
  query <- alloc [("short", PyInt 0)] ;;
  r <- get cli "releases" release_id (Some query) ;;
  print (PyStr r).

End Commands.

Section Main.
Context `{W : World} `{T : Text}.
Variable config_get : string -> option string.
(** [configure], whose dialogue on the console and whose writing of the
    credentials file are not part of this model. *)
Variable configure : M unit.
(** [[key.strip() for key in text.split(",")]] *)
Variable split_keys : string -> list string.

(** The client that [initialize] leaves in the global [THREATKB_CLI]. *)
Definition initialized (prog : string) (g : module_globals) : M ThreatKB :=
  g' <- lift (initialize config_get prog g) ;;
  match THREATKB_CLI g' with
  | Some cli => ret cli
  | None => raise (Exception "THREATKB_CLI is None")
  end.

(** [main], from the result [(args.filter_keys_only, params)] of
    [parse_known_args] on; the result is [Some n] when [sys.exit(n)] ended
    the run. *)
Definition main (argv : list string) (filter_keys_only : option string)
    (params : list string) : M (option Z) :=
  (if (length argv <? 2)%nat
   then _ <- lift (help argv EmptyString true) ;; ret tt
   else ret tt) ;;;
  usage <- lift (help argv EmptyString true) ;;
  match params with
  | [] =>
      text <- lift (help argv EmptyString true) ;;
      print (PyStr text) ;;;
      ret (Some 1%Z)
  | action :: _ =>
      let g :=
        match filter_keys_only with
        | Some text =>
            if truthy (PyStr text)
            then {| API_KEY := None; SECRET_KEY := None; API_HOST := None;
                    THREATKB_CLI := None;
                    FILTER_KEYS := Some (split_keys text) |}
            else globals_at_import
        | None => globals_at_import
        end in
      prog <- lift (first argv) ;;
      if String.eqb action "configure" then
        configure ;;; ret None
      else if String.eqb action "attach" then
        cli <- initialized prog g ;; attach cli params ;;; ret None
      else if String.eqb action "comment" then
        cli <- initialized prog g ;; comment cli params ;;; ret None
      else if String.eqb action "release" then
        cli <- initialized prog g ;; release cli params ;;; ret None
      else if String.eqb action "search" then
        cli <- initialized prog g ;; search cli params ;;; ret None
      else
        _ <- lift (help argv EmptyString true) ;; ret None
  end.

End Main.

End Startup.
Export Startup.

(** ** More vocabulary *)

Module Vocabulary2.

(** [old] occurs somewhere in [s]. *)
Fixpoint occurs (old s : string) : bool :=
  String.prefix old s ||
  match s with
  | EmptyString => false
  | String _ s' => occurs old s'
  end.

(** Two clients that differ at most in their filter keys. *)
Definition same_session (c c' : ThreatKB) : Prop :=
  host c = host c' /\ token c = token c' /\ secret_key c = secret_key c' /\
  base_uri c = base_uri c' /\ use_https c = use_https c'.

(** The only exchange of a computation, when it has exactly one. *)
Definition answered {A} (m : M A) (st : state) (q : request)
    (rep : option response) : Prop :=
  issued m st = [(q, rep)].

End Vocabulary2.
Export Vocabulary2.

(** ** More of the scripted world *)

Module Demo2.

Definition found_rules : string :=
  "{" +:+ Demo.quoted "total_count" +:+ ": 2, " +:+ Demo.quoted "data" +:+
  ": [{" +:+ Demo.quoted "id" +:+ ": 4}, {" +:+ Demo.quoted "id" +:+
  ": 9}]}".
Definition found_rules_doc : pydict :=
  [("total_count", PyInt 2);
   ("data", PyList [PyDict [("id", PyInt 4)]; PyDict [("id", PyInt 9)]])].

Definition rule5 : string :=
  "{" +:+ Demo.quoted "id" +:+ ": 5, " +:+ Demo.quoted "name" +:+ ": " +:+
  Demo.quoted "r" +:+ ", " +:+ Demo.quoted "state" +:+ ": " +:+
  Demo.quoted "Release" +:+ "}".
Definition rule5_doc : pydict :=
  [("id", PyInt 5); ("name", PyStr "r"); ("state", PyStr "Release")].

Definition two_matches : string :=
  "{" +:+ Demo.quoted "total_count" +:+ ": 2, " +:+ Demo.quoted "data" +:+
  ": [{" +:+ Demo.quoted "id" +:+ ": 7}, {" +:+ Demo.quoted "id" +:+
  ": 8}]}".
Definition two_matches_doc : pydict :=
  [("total_count", PyInt 2);
   ("data", PyList [PyDict [("id", PyInt 7)]; PyDict [("id", PyInt 8)]])].

Definition recent_comment : pyvalue :=
  PyDict [("date_modified", PyStr "2026-01-11T08:30:00")].
Definition undated_fields : pydict := [("comment", PyStr "seen again")].

Definition recent_then_null : string :=
  "[{" +:+ Demo.quoted "date_modified" +:+ ": " +:+
  Demo.quoted "2026-01-11T08:30:00" +:+ "}, null]".
Definition undated_then_recent : string :=
  "[{" +:+ Demo.quoted "comment" +:+ ": " +:+ Demo.quoted "seen again" +:+
  "}, {" +:+ Demo.quoted "date_modified" +:+ ": " +:+
  Demo.quoted "2026-01-11T08:30:00" +:+ "}]".

(** One entity matches, and its id is 0. *)
Definition zero_match : string :=
  "{" +:+ Demo.quoted "total_count" +:+ ": 1, " +:+ Demo.quoted "data" +:+
  ": [{" +:+ Demo.quoted "id" +:+ ": 0}]}".
Definition zero_match_doc : pydict :=
  [("total_count", PyInt 1); ("data", PyList [PyDict [("id", PyInt 0)]])].

Definition documents : list (string * pyvalue) :=
  Demo.documents ++
  [(zero_match, PyDict zero_match_doc)] ++
  [(found_rules, PyDict found_rules_doc);
   (rule5, PyDict rule5_doc);
   (two_matches, PyDict two_matches_doc);
   (recent_then_null, PyList [recent_comment; PyNone]);
   (undated_then_recent, PyList [PyDict undated_fields; recent_comment])].

(** Rules: a search that finds two, the batch deletion, and rule 5. *)
Definition rules : World :=
  Demo.world [(Demo.base +:+ "/yara_rules", Demo.ok found_rules);
              (Demo.base +:+ "/yara_rules/delete", Demo.ok "deleted");
              (Demo.base +:+ "/yara_rules/5", Demo.ok rule5)]
    documents Demo.dates Demo.now.

(** Two entities match the ip. *)
Definition two_ips : World :=
  Demo.world [(Demo.base +:+ "/c2ips", Demo.ok two_matches)]
    documents Demo.dates Demo.now.

Definition commented (comments : string) : World :=
  Demo.world [(Demo.base +:+ "/c2ips", Demo.ok Demo.one_match);
              (Demo.base +:+ "/comments", Demo.ok comments)]
    documents Demo.dates Demo.now.

(** The ip is known under the id 0, and has two comments. *)
Definition id_zero : World :=
  Demo.world [(Demo.base +:+ "/c2ips", Demo.ok zero_match);
              (Demo.base +:+ "/comments", Demo.ok Demo.two_comments)]
    documents Demo.dates Demo.now.

(** The request of a lookup by a search text, in the state after import. *)
Definition lookup_request (endpoint text : string) : request :=
  built_request Demo.client "GET" endpoint (next import_state) (Imm PyNone)
    _request_files _request_headers
    (credentials_set Demo.client (next import_state)
       (allocated [("searches", PyStr text)] import_state)).

(** [lower] on texts of the letters A to Z and other ASCII characters. *)
Definition lower_char (c : ascii) : ascii :=
  let n := nat_of_ascii c in
  if ((65 <=? n) && (n <=? 90))%nat then ascii_of_nat (n + 32) else c.

Fixpoint ascii_lower (s : string) : string :=
  match s with
  | EmptyString => EmptyString
  | String c s' => String (lower_char c) (ascii_lower s')
  end.

Definition ascii_text : Text := {| lower := ascii_lower |}.

(** A credentials file, with the scheme of the host in capitals. *)
Definition stored (key : string) : option string :=
  Demo.assoc key [("token", "t0k3n"); ("secret_key", "s3cr3t");
                  ("api_host", "HTTP://Example.org:9000")].

(** A credentials file without a secret key. *)
Definition incomplete (key : string) : option string :=
  Demo.assoc key [("token", "t0k3n"); ("api_host", "example.org")].

Definition other_client : ThreatKB :=
  {| host := "127.0.0.1:9000/"; token := "t0k3n"; secret_key := "s3cr3t";
     base_uri := "ThreatKB/"; use_https := false;
     filter_on_keys := None |}.

End Demo2.

(** * Properties *)

(** ** Dictionaries *)

Lemma dict_get_set_eq (d : pydict) k v : dict_get (dict_set k v d) k = Some v.
Proof.
  induction d as [|[k' v'] d IH]; simpl.
  - by rewrite String.eqb_refl.
  - destruct (String.eqb k' k) eqn:E; simpl.
    + by rewrite String.eqb_refl.
    + by rewrite E.
Qed.

Lemma dict_get_set_ne (d : pydict) k k' v :
  k <> k' -> dict_get (dict_set k v d) k' = dict_get d k'.
Proof.
  intros Hne. induction d as [|[k0 v0] d IH]; simpl.
  - by apply String.eqb_neq in Hne as ->.
  - destruct (String.eqb k0 k) eqn:E; simpl.
    + apply String.eqb_eq in E as ->.
      by apply String.eqb_neq in Hne as ->.
    + by rewrite IH.
Qed.

(** ** One request *)

Section RequestFacts.
Context `{W : World}.
Variable self : ThreatKB.

Lemma session_request_run method url a body fl hd st :
  session_request method url a body fl hd st =
    (match serve (log st) (sent method url a body fl hd st) with
     | Some r => Ok r
     | None => Raise ConnectionError
     end,
     logged (sent method url a body fl hd st,
             serve (log st) (sent method url a body fl hd st)) st).
Proof.
  unfold session_request, logged, sent. by destruct (serve _ _).
Qed.

Lemma setitem_twice a st :
  (setitem a "secret_key" (PyStr (secret_key self))
     (setitem a "token" (PyStr (token self)) st).2).2 = credentials_set self a st.
Proof.
  unfold credentials_set, setitem, set_heap, with_credentials, obj. simpl.
  by rewrite lookup_total_insert_eq, insert_insert_eq.
Qed.

Lemma _request_run method uri uri_params body files headers st :
  let a := default _request_uri_params uri_params in
  let st1 := credentials_set self a st in
  let q := built_request self method uri a body (default _request_files files)
             (default _request_headers headers) st1 in
  _request self method uri uri_params body files headers st =
    (outcome_of (serve (log st) q), logged (q, serve (log st) q) st1).
Proof.
  intros a st1 q.
  unfold _request, bind. fold a. fold (url_of self uri).
  change (setitem a "token" (PyStr (token self)) st)
    with (Ok tt, (setitem a "token" (PyStr (token self)) st).2).
  cbv beta iota.
  change (setitem a "secret_key" (PyStr (secret_key self))
            (setitem a "token" (PyStr (token self)) st).2)
    with (Ok tt, (setitem a "secret_key" (PyStr (secret_key self))
            (setitem a "token" (PyStr (token self)) st).2).2).
  cbv beta iota. rewrite setitem_twice. fold st1.
  assert (Hq : sent method (url_of self uri) a body
                 (match obj st1 (default _request_files files) with
                  | [] => None
                  | _ => Some (default _request_files files)
                  end) (default _request_headers headers) st1 = q).
  { unfold q, built_request, sent.
    destruct (obj st1 (default _request_files files)) eqn:E; simpl;
      by rewrite ?E. }
  unfold truthy.
  destruct (obj st1 (default _request_files files)) as [|e fd] eqn:Efl;
    rewrite session_request_run, Hq;
    change (log st1) with (log st);
    destruct (serve (log st) q) as [r|]; simpl; try done;
    unfold raise, ret; by destruct (status_code r =? 401)%Z.
Qed.

Lemma obj_logged q st a : obj (logged q st) a = obj st a.
Proof. done. Qed.

Lemma obj_credentials_set_eq a st :
  obj (credentials_set self a st) a = with_credentials self (obj st a).
Proof. unfold credentials_set, obj. simpl. apply lookup_total_insert_eq. Qed.

Lemma obj_credentials_set_ne a b st :
  a <> b -> obj (credentials_set self a st) b = obj st b.
Proof.
  intros. unfold credentials_set, obj. simpl.
  by apply lookup_total_insert_ne.
Qed.

Lemma issued_logged {A} (m : M A) st r q st1 :
  m st = (r, logged q st1) -> log st1 = log st -> issued m st = [q].
Proof.
  intros Hm Hlog. unfold issued. rewrite Hm. simpl. rewrite Hlog.
  by rewrite drop_app_length.
Qed.

Lemma get_run endpoint id_ params st :
  let a := default get_params params in
  let st1 := credentials_set self a st in
  let q := built_request self "GET" (endpoint +:+ id_suffix id_) a (Imm PyNone)
             _request_files _request_headers st1 in
  get self endpoint id_ params st =
    (rbind (outcome_of (serve (log st) q)) (fun r => Ok (content r)),
     logged (q, serve (log st) q) st1).
Proof.
  intros a st1 q. unfold get, bind. rewrite _request_run. simpl.
  fold a st1 q. by destruct (outcome_of _).
Qed.

Lemma update_run endpoint id_ json_data st :
  let st1 := credentials_set self _request_uri_params st in
  let q := built_request self "PUT" (endpoint +:+ id_suffix id_)
             _request_uri_params (default (Ref update_json_data) json_data)
             _request_files _request_headers st1 in
  update self endpoint id_ json_data st =
    (rbind (outcome_of (serve (log st) q)) (fun r => Ok (content r)),
     logged (q, serve (log st) q) st1).
Proof.
  intros st1 q. unfold update, bind. rewrite _request_run. simpl.
  fold st1 q. by destruct (outcome_of _).
Qed.

Lemma delete_run endpoint s st :
  let st1 := credentials_set self _request_uri_params st in
  let q := built_request self "DELETE" (endpoint +:+ "/" +:+ s)
             _request_uri_params (Imm PyNone)
             _request_files _request_headers st1 in
  delete self endpoint (IdStr s) st =
    (rbind (outcome_of (serve (log st) q))
       (fun r => Ok (status_code r =? 200)%Z),
     logged (q, serve (log st) q) st1).
Proof.
  intros st1 q. unfold delete, bind, lift. simpl. rewrite _request_run.
  simpl. fold st1 q. by destruct (outcome_of _).
Qed.

Lemma delete_not_str endpoint id_ st :
  (forall s, id_ <> IdStr s) ->
  delete self endpoint id_ st = (Raise TypeError, st).
Proof. intros Hid. destruct id_; try done. by destruct (Hid s). Qed.

Lemma create_run endpoint json_data files st :
  let st1 := credentials_set self _request_uri_params st in
  let q := create_request self endpoint json_data files st in
  create self endpoint json_data files st =
    (rbind (outcome_of (serve (log st) q))
       (fun r => Ok (if (status_code r =? 412)%Z then None
                     else Some (content r))),
     logged (q, serve (log st) q) st1).
Proof.
  intros st1 q. unfold create, bind, truthy. unfold q, create_request.
  destruct (obj st (default create_files files)) as [|e fd];
    rewrite _request_run; simpl; fold st1;
    (destruct (outcome_of _) as [r|]; simpl; [|done]);
    by destruct (status_code r =? 412)%Z.
Qed.

End RequestFacts.

(** ** The client's operations *)

Section ClientFacts.
Context `{W : World}.
Variable self : ThreatKB.

Lemma with_credentials_token d :
  dict_get (with_credentials self d) "token" = Some (PyStr (token self)).
Proof.
  unfold with_credentials.
  rewrite dict_get_set_ne by done. apply dict_get_set_eq.
Qed.

Lemma with_credentials_secret_key d :
  dict_get (with_credentials self d) "secret_key" =
    Some (PyStr (secret_key self)).
Proof. apply dict_get_set_eq. Qed.

Lemma with_credentials_other d k :
  k <> "token" -> k <> "secret_key" ->
  dict_get (with_credentials self d) k = dict_get d k.
Proof.
  intros. unfold with_credentials. by rewrite !dict_get_set_ne.
Qed.

Lemma sends_with_credentials_intro {A} (m : M A) st a r q rep st1 :
  m st = (r, logged (q, rep) (credentials_set self a st)) ->
  req_params q = obj (credentials_set self a st) a ->
  st1 = credentials_set self a st ->
  sends_with_credentials self a m st.
Proof.
  intros Hm Hq _. exists q, rep. split.
  - by eapply issued_logged.
  - unfold carries_credentials. rewrite Hq, obj_credentials_set_eq.
    auto using with_credentials_token, with_credentials_secret_key,
      with_credentials_other.
Qed.

(** C1. Every request that [_request] issues, and so every request of
    [get], [update], [delete] and [create], has the session's token under
    the key [token] and the session's secret key under [secret_key] among
    its query parameters, whatever the parameter dictionary held before;
    the other keys are as the caller gave them. *)
Theorem request_carries_credentials (st : state) :
  (forall method uri uri_params body files headers,
     sends_with_credentials self (default _request_uri_params uri_params)
       (_request self method uri uri_params body files headers) st) /\
  (forall endpoint id_ params,
     sends_with_credentials self (default get_params params)
       (get self endpoint id_ params) st) /\
  (forall endpoint id_ json_data,
     sends_with_credentials self _request_uri_params
       (update self endpoint id_ json_data) st) /\
  (forall endpoint s,
     sends_with_credentials self _request_uri_params
       (delete self endpoint (IdStr s)) st) /\
  (forall endpoint json_data files,
     sends_with_credentials self _request_uri_params
       (create self endpoint json_data files) st).
Proof.
  repeat split; intros.
  - eapply sends_with_credentials_intro;
      [apply _request_run | done | done].
  - eapply sends_with_credentials_intro; [apply get_run | done | done].
  - eapply sends_with_credentials_intro; [apply update_run | done | done].
  - eapply sends_with_credentials_intro; [apply delete_run | done | done].
  - eapply sends_with_credentials_intro; [apply create_run | | done].
    unfold create_request. by destruct (obj st _).
Qed.

Lemma auth_error_on_401_intro {A} (m : M A) st (f : response -> A) q st1 :
  m st = (rbind (outcome_of (serve (log st) q)) (fun r => Ok (f r)),
          logged (q, serve (log st) q) st1) ->
  log st1 = log st ->
  auth_error_on_401 m st.
Proof.
  intros Hm Hlog. exists q. split; [by eapply issued_logged|].
  unfold raises_auth_error. rewrite Hm. simpl.
  destruct (serve (log st) q) as [r|]; simpl.
  - destruct (status_code r =? 401)%Z eqn:E; simpl.
    + apply Z.eqb_eq in E. split; [|done]. intros _. by exists r.
    + apply Z.eqb_neq in E. split; [done|].
      intros (r' & [= <-] & Hs). done.
  - split; [done|]. by intros (r' & Hr & _).
Qed.

Lemma auth_error_on_401_plain (m : M response) st q st1 :
  m st = (outcome_of (serve (log st) q), logged (q, serve (log st) q) st1) ->
  log st1 = log st ->
  auth_error_on_401 m st.
Proof.
  intros Hm Hlog. apply (auth_error_on_401_intro m st id q st1); [|done].
  rewrite Hm. by destruct (outcome_of _).
Qed.

(** C7. Each of [_request], [get], [update], [delete] and [create] issues
    one request and raises the authentication error exactly when the
    service answers that request with status 401; the call then has no
    result.  [delete] with an id that is no string issues no request and
    raises no authentication error. *)
Theorem auth_error_exactly_on_401 (st : state) :
  (forall method uri uri_params body files headers,
     auth_error_on_401
       (_request self method uri uri_params body files headers) st) /\
  (forall endpoint id_ params,
     auth_error_on_401 (get self endpoint id_ params) st) /\
  (forall endpoint id_ json_data,
     auth_error_on_401 (update self endpoint id_ json_data) st) /\
  (forall endpoint s,
     auth_error_on_401 (delete self endpoint (IdStr s)) st) /\
  (forall endpoint id_,
     (forall s, id_ <> IdStr s) ->
     issued (delete self endpoint id_) st = [] /\
     ~ raises_auth_error (delete self endpoint id_) st) /\
  (forall endpoint json_data files,
     auth_error_on_401 (create self endpoint json_data files) st).
Proof.
  split; [|split; [|split; [|split; [|split]]]]; intros.
  - eapply auth_error_on_401_plain; [apply _request_run | done].
  - eapply auth_error_on_401_intro; [apply get_run | done].
  - eapply auth_error_on_401_intro; [apply update_run | done].
  - eapply auth_error_on_401_intro; [apply delete_run | done].
  - unfold raises_auth_error, issued. rewrite delete_not_str by done.
    simpl. by rewrite drop_all.
  - eapply auth_error_on_401_intro; [apply create_run | done].
Qed.

(** C6. [create] issues one POST; when the service answers it with status
    412 the result is [None], and for any other status but 401 it is the
    body of the response. *)
Theorem create_result endpoint json_data files (st : state) :
  let m := create self endpoint json_data files in
  exists q,
    issued m st = [(q, serve (log st) q)] /\
    req_method q = "POST" /\
    req_url q = url_of self endpoint /\
    forall r, serve (log st) q = Some r ->
      (status_code r = 412%Z -> (m st).1 = Ok None) /\
      (status_code r <> 412%Z -> status_code r <> 401%Z ->
         (m st).1 = Ok (Some (content r))).
Proof.
  intros m. exists (create_request self endpoint json_data files st).
  split; [|split; [|split]].
  - eapply issued_logged; [apply create_run | done].
  - unfold create_request. by destruct (obj st _).
  - unfold create_request. by destruct (obj st _).
  - intros r Hr. unfold m. rewrite create_run, Hr.
    unfold outcome_of, rbind. split.
    + intros Hs.
      assert (H401 : (status_code r =? 401)%Z = false)
        by (apply Z.eqb_neq; lia).
      apply Z.eqb_eq in Hs. by rewrite H401, Hs.
    + intros H412 H401. apply Z.eqb_neq in H412, H401.
      by rewrite H401, H412.
Qed.

Lemma effects_intro {A} (m : M A) st a r x :
  m st = (r, logged x (credentials_set self a st)) ->
  obj (m st).2 a = with_credentials self (obj st a) /\
  dict_get (obj (m st).2 a) "token" = Some (PyStr (token self)) /\
  dict_get (obj (m st).2 a) "secret_key" = Some (PyStr (secret_key self)) /\
  forall b, b <> a -> obj (m st).2 b = obj st b.
Proof.
  intros ->. simpl. rewrite obj_logged, obj_credentials_set_eq.
  split; [done|]. split; [apply with_credentials_token|].
  split; [apply with_credentials_secret_key|].
  intros b Hb. rewrite obj_logged. by apply obj_credentials_set_ne.
Qed.

End ClientFacts.

Section Sharing.
Context `{W : World}.
Variable self : ThreatKB.

(** C9, as amended. [get] writes the token and the secret key into the very
    dictionary object it is given as [params], and leaves every other object
    as it was.  [update] and [create] take no parameter dictionary: they
    write into the default parameter dictionary of [_request] and leave their
    [json_data] and [files] objects as they were.  A default dictionary is
    one shared object: a later call, of any client, finds in it what an
    earlier call wrote. *)
Theorem argument_dictionary_effects (st : state) :
  (forall endpoint id_ a,
     let st' := (get self endpoint id_ (Some a) st).2 in
     obj st' a = with_credentials self (obj st a) /\
     dict_get (obj st' a) "token" = Some (PyStr (token self)) /\
     dict_get (obj st' a) "secret_key" = Some (PyStr (secret_key self)) /\
     forall b, b <> a -> obj st' b = obj st b) /\
  (forall endpoint id_,
     let st' := (get self endpoint id_ None st).2 in
     obj st' get_params = with_credentials self (obj st get_params) /\
     forall b, b <> get_params -> obj st' b = obj st b) /\
  (forall endpoint id_ json_data,
     let st' := (update self endpoint id_ json_data st).2 in
     obj st' _request_uri_params =
       with_credentials self (obj st _request_uri_params) /\
     forall b, b <> _request_uri_params -> obj st' b = obj st b) /\
  (forall endpoint json_data files,
     let st' := (create self endpoint json_data files st).2 in
     obj st' _request_uri_params =
       with_credentials self (obj st _request_uri_params) /\
     forall b, b <> _request_uri_params -> obj st' b = obj st b) /\
  (forall (other : ThreatKB) endpoint id_ endpoint' id_',
     let st' := (get self endpoint id_ None st).2 in
     exists q rep,
       issued (get other endpoint' id_' None) st' = [(q, rep)] /\
       req_params q =
         with_credentials other (with_credentials self (obj st get_params))) /\
  (forall (other : ThreatKB) endpoint id_ json_data endpoint' json_data' files',
     let st' := (update self endpoint id_ json_data st).2 in
     exists q rep,
       issued (create other endpoint' json_data' files') st' = [(q, rep)] /\
       req_params q =
         with_credentials other
           (with_credentials self (obj st _request_uri_params))).
Proof.
  split; [|split; [|split; [|split; [|split]]]]; intros.
  - eapply effects_intro. apply get_run.
  - edestruct (effects_intro self (get self endpoint id_ None) st)
      as (? & _ & _ & ?); [apply get_run|]. done.
  - edestruct (effects_intro self (update self endpoint id_ json_data) st)
      as (? & _ & _ & ?); [apply update_run|]. done.
  - edestruct (effects_intro self (create self endpoint json_data files) st)
      as (? & _ & _ & ?); [apply create_run|]. done.
  - do 2 eexists. split.
    + eapply issued_logged; [apply get_run | done].
    + simpl. rewrite obj_credentials_set_eq. f_equal. subst st'.
      by destruct (effects_intro self (get self endpoint id_ None) st
                     get_params _ _ (get_run self endpoint id_ None st))
        as [-> _].
  - do 2 eexists. split.
    + eapply issued_logged; [apply create_run | done].
    + transitivity (obj (credentials_set other _request_uri_params st')
                      _request_uri_params).
      { unfold create_request. by destruct (obj st' _). }
      rewrite obj_credentials_set_eq. f_equal. subst st'.
      by destruct (effects_intro self (update self endpoint id_ json_data) st
                     _request_uri_params _ _
                     (update_run self endpoint id_ json_data st))
        as [-> _].
Qed.

End Sharing.

(** C9 does not hold for [update]: given a dictionary object of the caller
    as [json_data], it leaves the object as it was, without a token. *)
Lemma update_spares_its_dictionary :
  let st := Demo.with_batch in
  let st' := (update (W := Demo.answering 200) Demo.client "/yara_rules/delete"
                IdNone (Some (Ref 7)) st).2 in
  obj st 7 = Demo.batch /\
  obj st' 7 = Demo.batch /\
  dict_get (obj st' 7) "token" = None /\
  dict_get (obj st' 7) "token" <> Some (PyStr (token Demo.client)).
Proof. vm_compute. repeat split; discriminate. Qed.

(** ** The helper's ip lookups *)

Section HelperFacts.
Context `{W : World}.
Variable self : ThreatKB.

Lemma get_c2ips_comments_unfold ip st :
  get_c2ips_comments self ip st =
    match get_c2ips_id self ip st with
    | (Ok id_, st1) =>
        let st2 :=
          allocated [("entity_type", PyInt 3); ("entity_id", id_)] st1 in
        if truthy id_ then
          match get self "/comments" IdNone (Some (next st1)) st2 with
          | (Ok body, st3) => (loads body, st3)
          | (Raise e, st3) => (Raise e, st3)
          end
        else (Ok PyNone, printed (PyStr "IP not found") st2)
    | (Raise e, st1) => (Raise e, st1)
    end.
Proof.
  unfold get_c2ips_comments at 1, bind.
  destruct (get_c2ips_id self ip st) as [[id_|e] st1]; [|done].
  simpl. by destruct (truthy id_).
Qed.

(** X27. The request of the lookup, and the two ways it yields no id: the
    service reports a count of zero, or an empty list of matches. *)
Lemma get_c2ips_id_no_match ip (st : state) r d total_count :
  let search := [("searches",
                  PyStr ("{" +:+ dq +:+ "ip" +:+ dq +:+ ":" +:+
                         dq +:+ ip +:+ dq +:+ "}"))] in
  let q := built_request self "GET" "/c2ips" (next st) (Imm PyNone)
             _request_files _request_headers
             (credentials_set self (next st) (allocated search st)) in
  serve (log st) q = Some r ->
  status_code r <> 401%Z ->
  json_loads (content r) = Some (PyDict d) ->
  dict_get d "total_count" = Some total_count ->
  truthy total_count = false \/ dict_get d "data" = Some (PyList []) ->
  (get_c2ips_id self ip st).1 = Ok PyNone /\
  issued (get_c2ips_id self ip) st = [(q, Some r)].
Proof.
  intros search q Hr H401 Hload Hcount Hnone.
  apply Z.eqb_neq in H401.
  unfold issued, get_c2ips_id, bind, alloc. cbv beta iota zeta.
  fold search. fold (allocated search st). rewrite get_run. cbv zeta.
  change (log (allocated search st)) with (log st).
  change (default get_params (Some (next st))) with (next st).
  change ("/c2ips" +:+ id_suffix IdNone) with "/c2ips".
  fold q. rewrite Hr. simpl outcome_of. rewrite H401. simpl rbind.
  cbv beta iota. unfold lift, loads. rewrite Hload. simpl subscript.
  rewrite Hcount. cbv beta iota.
  assert (Hlog : drop (length (log st)) (log st ++ [(q, Some r)]) =
                 [(q, Some r)]) by apply drop_app_length.
  destruct Hnone as [-> | Hdata]; [by split|].
  destruct (truthy total_count); [|by split].
  simpl subscript. rewrite Hdata. by split.
Qed.

(** C8. The test of [get_c2ips_comments] is [if id_:].  When the lookup of
    the ip yields an id that this test takes as false ([None] when no entity
    matched, and also the id 0 of a matched entity), [get_c2ips_comments]
    prints its message and returns [None], and issues no request beyond
    those of the lookup.  When the lookup yields any other id, it issues one
    GET to [/comments] whose parameters are [entity_type] 3 and [entity_id]
    that id (with the credentials), and returns what [json.loads] makes of
    the body. *)
Theorem get_c2ips_comments_spec ip (st : state) id_ st1 :
  get_c2ips_id self ip st = (Ok id_, st1) ->
  let params := [("entity_type", PyInt 3); ("entity_id", id_)] in
  let st2 := allocated params st1 in
  (truthy id_ = false ->
     get_c2ips_comments self ip st =
       (Ok PyNone, printed (PyStr "IP not found") st2) /\
     log (get_c2ips_comments self ip st).2 = log st1) /\
  (truthy id_ = true ->
     exists q,
       log (get_c2ips_comments self ip st).2 =
         log st1 ++ [(q, serve (log st1) q)] /\
       req_method q = "GET" /\
       req_url q = url_of self "/comments" /\
       req_params q = with_credentials self params /\
       forall r, serve (log st1) q = Some r -> status_code r <> 401%Z ->
         (get_c2ips_comments self ip st).1 = loads (content r)).
Proof.
  intros Hid params st2. rewrite get_c2ips_comments_unfold, Hid.
  fold params. fold st2. split; intros Ht; rewrite Ht.
  - done.
  - cbv zeta. rewrite get_run. cbv zeta.
    set (st3 := credentials_set self (default get_params (Some (next st1))) st2).
    set (q := built_request self "GET" _ _ _ _ _ st3).
    exists q. change (log st2) with (log st1).
    split; [|split; [|split; [|split]]].
    + by destruct (outcome_of (serve (log st1) q)).
    + done.
    + done.
    + unfold q, st3. simpl. rewrite obj_credentials_set_eq.
      unfold st2, allocated, obj. simpl.
      by rewrite lookup_total_insert_eq.
    + intros r Hr H401. rewrite Hr. simpl.
      apply Z.eqb_neq in H401. by rewrite H401.
Qed.

(** C10. When [get_c2ips_comments] returns [None], [squelch_check] does not
    return: iterating over [None] raises a [TypeError]. *)
Theorem squelch_check_raises_on_unknown_ip ip days (st st' : state) :
  get_c2ips_comments self ip st = (Ok PyNone, st') ->
  squelch_check self ip days st = (Raise TypeError, st').
Proof.
  intros Hc. unfold squelch_check, bind. by rewrite Hc.
Qed.

Lemma stamp_inv c d :
  stamp c = Some d ->
  exists s, subscript c "date_modified" = Ok (PyStr s) /\ strptime s = Some d.
Proof.
  unfold stamp. destruct (subscript c "date_modified") as [[]|]; try done.
  eauto.
Qed.

Lemma window_ok_sub days now :
  window_ok days now ->
  timedelta days = Ok (days * 86400000000)%Z /\
  datetime_sub now (days * 86400000000) = Ok (now - days * 86400000000)%Z.
Proof.
  intros [Hd [Hlo Hhi]]. unfold timedelta, datetime_sub. split.
  - by apply Z.leb_le in Hd as ->.
  - apply Z.leb_le in Hlo, Hhi. by rewrite Hlo, Hhi.
Qed.

Lemma squelch_loop_step days c rest st d :
  stamp c = Some d ->
  window_ok days (clock (ticks st)) ->
  squelch_loop days (c :: rest) st =
    if (clock (ticks st) - days * 86400000000 <? d)%Z
    then (Ok true, ticked st)
    else squelch_loop days rest (ticked st).
Proof.
  intros (s & Hsub & Hparse)%stamp_inv [Htd Hsubtr]%window_ok_sub.
  simpl. unfold bind, datetime_now, lift. fold (ticked st).
  rewrite Htd, Hsubtr, Hsub. simpl. rewrite Hparse.
  by destruct (_ <? _)%Z.
Qed.

Lemma squelch_loop_spec days cs st :
  Forall (fun c => is_Some (stamp c)) cs ->
  (forall i, i < length cs -> window_ok days (clock (ticks st + i))) ->
  exists b st',
    squelch_loop days cs st = (Ok b, st') /\
    (b = true <->
     exists i c, cs !! i = Some c /\ recent days (clock (ticks st + i)) c).
Proof.
  intros Hcs. revert st.
  induction Hcs as [|c rest [d Hd] Hrest IH]; intros st Hwin.
  - exists false, st. split; [done|]. split; [done|].
    by intros (i & c & Hi & _).
  - assert (Hnow : window_ok days (clock (ticks st))).
    { specialize (Hwin 0). rewrite Nat.add_0_r in Hwin. apply Hwin.
      simpl. lia. }
    rewrite (squelch_loop_step _ _ _ _ _ Hd Hnow).
    destruct (_ <? _)%Z eqn:Hlt.
    + exists true, (ticked st). split; [done|]. split; [|done].
      intros _. exists 0, c. split; [done|]. exists d.
      rewrite Nat.add_0_r. split; [done|]. by apply Z.ltb_lt.
    + destruct (IH (ticked st)) as (b & st' & Hrun & Hb).
      { intros i Hi. change (ticks (ticked st)) with (S (ticks st)).
        rewrite Nat.add_succ_comm. apply Hwin. simpl. lia. }
      exists b, st'. split; [done|]. rewrite Hb.
      change (ticks (ticked st)) with (S (ticks st)). split.
      * intros (i & c' & Hi & Hr). exists (S i), c'. split; [done|].
        by rewrite <- Nat.add_succ_comm.
      * intros ([|i] & c' & Hi & Hr).
        -- simpl in Hi. injection Hi as <-. destruct Hr as (d' & Hd' & Hr).
           rewrite Nat.add_0_r in Hr. apply Z.ltb_ge in Hlt.
           rewrite Hd in Hd'. injection Hd' as <-. lia.
        -- exists i, c'. split; [done|]. by rewrite Nat.add_succ_comm.
Qed.

(** C5. When the comments fetched for the ip all carry a [date_modified]
    that [strptime] reads, and the day window is one that [datetime] can
    subtract, [squelch_check] returns, and it returns true exactly when some
    comment's timestamp is later than the clock reading taken for that
    comment, minus [days] days; it returns false for an empty list. *)
Theorem squelch_check_spec ip days (st : state) cs st1 :
  get_c2ips_comments self ip st = (Ok (PyList cs), st1) ->
  Forall (fun c => is_Some (stamp c)) cs ->
  (forall i, i < length cs -> window_ok days (clock (ticks st1 + i))) ->
  exists b,
    (squelch_check self ip days st).1 = Ok b /\
    (b = true <->
     exists i c, cs !! i = Some c /\ recent days (clock (ticks st1 + i)) c) /\
    (cs = [] -> b = false).
Proof.
  intros Hc Hcs Hwin.
  destruct (squelch_loop_spec days cs st1 Hcs Hwin) as (b & st' & Hrun & Hb).
  exists b. unfold squelch_check, bind. rewrite Hc. simpl. rewrite Hrun.
  split; [done|]. split; [done|].
  intros ->. simpl in Hrun. by injection Hrun as <-.
Qed.

End HelperFacts.

(** ** The result filter *)

Lemma dict_get_is_Some_keys (d : pydict) k :
  is_Some (dict_get d k) <-> k ∈ dict_keys d.
Proof.
  unfold dict_keys. induction d as [|[k' v] d IH]; csimpl.
  - split; [by intros [? ?] | by intros ?%elem_of_nil].
  - rewrite elem_of_cons. destruct (String.eqb k' k) eqn:E.
    + apply String.eqb_eq in E as ->. split; eauto.
    + apply String.eqb_neq in E. rewrite IH. split; [by right|].
      by intros [->|?].
Qed.

Lemma dict_keys_set (d : pydict) k v :
  dict_keys (dict_set k v d) =
    if decide (k ∈ dict_keys d) then dict_keys d else dict_keys d ++ [k].
Proof.
  unfold dict_keys. induction d as [|[k' v'] d IH]; csimpl.
  - done.
  - destruct (String.eqb k' k) eqn:E.
    + apply String.eqb_eq in E as ->. csimpl.
      rewrite decide_True; [done | apply elem_of_cons; auto].
    + apply String.eqb_neq in E. csimpl. rewrite IH.
      destruct (decide (k ∈ d.*1)) as [Hin|Hin].
      * rewrite decide_True; [done | apply elem_of_cons; auto].
      * rewrite decide_False; [done|]. rewrite elem_of_cons.
        by intros [->|?].
Qed.

Lemma elem_of_dedup_first (l : list string) k : k ∈ dedup_first l <-> k ∈ l.
Proof.
  induction l as [|k' l IH]; simpl; [done|].
  rewrite !elem_of_cons, list_elem_of_filter, IH.
  destruct (decide (k = k')); tauto.
Qed.

Lemma dict_keys_fold (kvs : list (string * pyvalue)) (d0 : pydict) :
  dict_keys (fold_left (fun d kv => dict_set kv.1 kv.2 d) kvs d0) =
    dict_keys d0 ++
    filter (fun k => k ∉ dict_keys d0) (dedup_first kvs.*1).
Proof.
  revert d0. induction kvs as [|[k v] kvs IH]; intros d0; simpl.
  - by rewrite app_nil_r.
  - rewrite IH, dict_keys_set. simpl.
    destruct (decide (k ∈ dict_keys d0)) as [Hin|Hin].
    + rewrite filter_cons_False by auto.
      rewrite list_filter_filter. f_equal. apply list_filter_iff.
      intros x. split; [|tauto]. intros Hx. split; [done|].
      intros ->. done.
    + rewrite filter_cons_True by done. rewrite <- app_assoc. simpl.
      do 2 f_equal. rewrite list_filter_filter. apply list_filter_iff.
      intros x. rewrite elem_of_app, list_elem_of_singleton. tauto.
Qed.

Lemma filter_not_in_nil (l : list string) :
  filter (fun k => k ∉ @nil string) l = l.
Proof.
  induction l as [|k l IH]; [done|].
  rewrite filter_cons_True by apply not_elem_of_nil. by rewrite IH.
Qed.

Lemma dict_keys_of_pairs (kvs : list (string * pyvalue)) :
  dict_keys (dict_of_pairs kvs) = dedup_first kvs.*1.
Proof.
  unfold dict_of_pairs. rewrite dict_keys_fold. apply filter_not_in_nil.
Qed.

Lemma dict_fold_sub (d : pydict) kvs d0 :
  (forall k v, (k, v) ∈ kvs -> dict_get d k = Some v) ->
  (forall k v, dict_get d0 k = Some v -> dict_get d k = Some v) ->
  forall k v,
    dict_get (fold_left (fun d kv => dict_set kv.1 kv.2 d) kvs d0) k = Some v ->
    dict_get d k = Some v.
Proof.
  revert d0. induction kvs as [|[k' v'] kvs IH]; intros d0 Hkvs Hd0; simpl.
  - done.
  - apply IH.
    + intros k v Hin. apply Hkvs. by right.
    + intros k v. destruct (decide (k' = k)) as [->|Hne].
      * rewrite dict_get_set_eq. intros [= <-]. apply Hkvs. by left.
      * rewrite dict_get_set_ne by done. apply Hd0.
Qed.

Lemma map_subscript_has_keys keys (d : pydict) :
  has_keys keys d ->
  exists vs,
    map_result (subscript (PyDict d)) keys = Ok vs /\
    length vs = length keys /\
    forall k v, (k, v) ∈ zip keys vs -> dict_get d k = Some v.
Proof.
  induction keys as [|k keys IH]; intros Hk.
  - exists []. split; [done|]. split; [done|].
    by intros k v ?%elem_of_nil.
  - destruct (Hk k) as [v Hv]; [by left|].
    destruct IH as (vs & Hvs & Hlen & Hzip).
    { intros k' Hin. apply Hk. by right. }
    exists (v :: vs). simpl. rewrite Hv, Hvs. simpl.
    split; [done|]. split; [by rewrite Hlen|].
    intros k' v' [[= -> ->]|Hin]%elem_of_cons; auto.
Qed.

Lemma map_result_raise {A B} (f : A -> result B) l x :
  x ∈ l -> (exists e, f x = Raise e) -> exists e, map_result f l = Raise e.
Proof.
  intros Hin [e He]. induction l as [|y l IH]; simpl.
  - by apply elem_of_nil in Hin.
  - apply elem_of_cons in Hin as [<-|Hin].
    + rewrite He. by exists e.
    + destruct (f y) as [b|e0]; [|by exists e0]. simpl.
      destruct (IH Hin) as [e' ->]. by exists e'.
Qed.

Lemma map_subscript_missing keys (d : pydict) k :
  k ∈ keys -> dict_get d k = None ->
  exists e, map_result (subscript (PyDict d)) keys = Raise e.
Proof.
  intros Hin Hk. apply (map_result_raise _ _ k Hin).
  exists (KeyError k). simpl. by rewrite Hk.
Qed.

Lemma project_has_keys keys (d : pydict) :
  has_keys keys d ->
  exists d',
    rbind (map_result (subscript (PyDict d)) keys)
      (fun vs => Ok (PyDict (dict_of_pairs (zip keys vs)))) = Ok (PyDict d') /\
    projection keys d d'.
Proof.
  intros (vs & Hvs & Hlen & Hzip)%map_subscript_has_keys.
  exists (dict_of_pairs (zip keys vs)). rewrite Hvs. split; [done|].
  assert (Hkeys : dict_keys (dict_of_pairs (zip keys vs)) = dedup_first keys).
  { rewrite dict_keys_of_pairs, fst_zip; [done | lia]. }
  split; [done|]. intros k Hk.
  assert (Hsome : is_Some (dict_get (dict_of_pairs (zip keys vs)) k)).
  { apply dict_get_is_Some_keys. rewrite Hkeys. by apply elem_of_dedup_first. }
  destruct Hsome as [v Hv]. rewrite Hv. symmetry.
  by apply (dict_fold_sub d (zip keys vs) [] Hzip) in Hv.
Qed.

Lemma project_all_have_keys keys (ds : list pydict) :
  Forall (has_keys keys) ds ->
  exists ds',
    map_result (fun o =>
      rbind (map_result (subscript o) keys)
        (fun vs => Ok (PyDict (dict_of_pairs (zip keys vs)))))
      (PyDict <$> ds) = Ok (PyDict <$> ds') /\
    Forall2 (projection keys) ds ds'.
Proof.
  induction 1 as [|d ds Hd Hds IH].
  - exists []. split; [done | constructor].
  - destruct (project_has_keys keys d Hd) as (d' & Hrun & Hproj).
    destruct IH as (ds' & Hruns & Hprojs).
    exists (d' :: ds'). split; [|by constructor].
    rewrite fmap_cons.
    change (map_result ?f (?x :: ?l))
      with (rbind (f x) (fun y =>
              rbind (map_result f l) (fun ys => Ok (y :: ys)))).
    cbv beta. rewrite Hrun. simpl. by rewrite Hruns.
Qed.

Section FilterFacts.
Context `{W : World}.
Variable self : ThreatKB.

Lemma filter_output_fallback output e :
  filter_output_try self output = Raise e ->
  filter_output self output = PyStr output.
Proof. unfold filter_output. by intros ->. Qed.

(** C4. [filter_output] parses its input with [json.loads].  For a mapping
    that has every requested key it returns a new mapping with exactly the
    requested keys, in the order of the key list, and the values of the
    input; for a sequence of such mappings it returns the sequence of their
    projections, in the same order.  Whenever the attempt raises (the
    input does not parse, a requested key is missing from the mapping or
    from a mapping of the sequence) it returns the input unchanged. *)
Theorem filter_output_spec (output : string) :
  (forall keys d,
     filter_on_keys self = Some keys ->
     json_loads output = Some (PyDict d) ->
     has_keys keys d ->
     exists d', filter_output self output = PyDict d' /\ projection keys d d') /\
  (forall keys ds,
     filter_on_keys self = Some keys ->
     json_loads output = Some (PyList (PyDict <$> ds)) ->
     Forall (has_keys keys) ds ->
     exists ds',
       filter_output self output = PyList (PyDict <$> ds') /\
       Forall2 (projection keys) ds ds') /\
  (forall e,
     filter_output_try self output = Raise e ->
     filter_output self output = PyStr output) /\
  (json_loads output = None -> filter_output self output = PyStr output) /\
  (forall keys d k,
     filter_on_keys self = Some keys ->
     json_loads output = Some (PyDict d) ->
     k ∈ keys -> dict_get d k = None ->
     filter_output self output = PyStr output) /\
  (forall keys objs d k,
     filter_on_keys self = Some keys ->
     json_loads output = Some (PyList objs) ->
     PyDict d ∈ objs -> k ∈ keys -> dict_get d k = None ->
     filter_output self output = PyStr output).
Proof.
  split; [|split; [|split; [|split; [|split]]]].
  - intros keys d Hkeys Hload Hhas.
    destruct (project_has_keys keys d Hhas) as (d' & Hrun & Hproj).
    exists d'. split; [|done].
    unfold filter_output, filter_output_try, loads.
    rewrite Hload, Hkeys. simpl. by rewrite Hrun.
  - intros keys ds Hkeys Hload Hhas.
    destruct (project_all_have_keys keys ds Hhas) as (ds' & Hrun & Hproj).
    exists ds'. split; [|done].
    unfold filter_output, filter_output_try, loads.
    rewrite Hload, Hkeys. simpl. by rewrite Hrun.
  - apply filter_output_fallback.
  - intros Hload. unfold filter_output, filter_output_try, loads.
    by rewrite Hload.
  - intros keys d k Hkeys Hload Hin Hk.
    destruct (map_subscript_missing keys d k Hin Hk) as [e He].
    unfold filter_output, filter_output_try, loads.
    rewrite Hload, Hkeys. simpl. by rewrite He.
  - intros keys objs d k Hkeys Hload Hobj Hin Hk.
    destruct (map_subscript_missing keys d k Hin Hk) as [e He].
    destruct (map_result_raise
      (fun o => rbind (map_result (subscript o) keys)
         (fun vs => Ok (PyDict (dict_of_pairs (zip keys vs)))))
      objs (PyDict d) Hobj) as [e' He'].
    { exists e. by rewrite He. }
    unfold filter_output, filter_output_try, loads.
    rewrite Hload, Hkeys. simpl. by rewrite He'.
Qed.

End FilterFacts.

(** ** The commands *)

Section CliFacts.
Context `{W : World}.
Variable cli : ThreatKB.

Lemma usage_handler_run usage prog args (st : state) :
  usage_handler usage (prog :: args) st = (Ok tt, st).
Proof. done. Qed.

Lemma import_state_create_files : obj import_state create_files = [].
Proof. vm_compute. reflexivity. Qed.

(** C3. With too few arguments after the command name, [attach], [comment]
    and [search] build the usage text and drop it; they then read a local
    variable that was never bound.  The state is unchanged: nothing is
    printed and no request is issued. *)
Theorem missing_arguments_raise_unbound_local prog args (st : state) :
  (length args < 3 ->
     attach cli (prog :: args) st = (Raise (UnboundLocalError "artifact"), st)) /\
  (length args < 3 ->
     comment cli (prog :: args) st = (Raise (UnboundLocalError "comment"), st)) /\
  (length args < 2 ->
     search cli (prog :: args) st = (Raise (UnboundLocalError "filter_"), st)).
Proof.
  split; [|split]; intros Hlen.
  - destruct args as [|a1 [|a2 [|a3 args]]]; try done. simpl in Hlen. lia.
  - destruct args as [|a1 [|a2 [|a3 args]]]; try done. simpl in Hlen. lia.
  - destruct args as [|a1 [|a2 args]]; try done. simpl in Hlen. lia.
Qed.

(** C2. The [comment] command with the arguments of the scenario issues one
    POST to [comments].  What it hands over as the body is the text that
    [json.dumps] makes of the object, a string, and not the object. *)
Theorem comment_posts_encoded_text :
  let payload := PyDict [("comment", PyStr "test comment");
                         ("entity_type", PyInt 1);
                         ("entity_id", PyStr "42")] in
  exists q,
    issued (comment cli ["comment"; "yara_rule"; "42"; "test comment"])
      import_state = [(q, serve [] q)] /\
    req_method q = "POST" /\
    req_url q = url_of cli "comments" /\
    req_files q = None /\
    req_json q = PyStr (json_dumps payload) /\
    req_json q <> payload.
Proof.
  intros payload.
  exists (create_request cli "comments"
            (Some (Imm (PyStr (json_dumps payload)))) None import_state).
  split.
  - unfold issued, comment, bind. simpl drop. cbv beta iota.
    fold payload. rewrite create_run.
    change (log import_state) with (@nil exchange).
    by destruct (outcome_of _).
  - unfold create_request. simpl default. rewrite import_state_create_files.
    by repeat split.
Qed.

End CliFacts.

(** * Runs on the scripted world *)

(** A caller's own [token] entry is overwritten, its other entries stay. *)
Example get_overwrites_caller_token :
  let W := Demo.answering 200 in
  let st := (alloc [("token", PyStr "mine"); ("short", PyInt 0)]
               import_state).2 in
  (req_params <$> (issued (get Demo.client "comments" IdNone (Some 7)) st).*1) =
    [[("token", PyStr "t0k3n"); ("short", PyInt 0);
      ("secret_key", PyStr "s3cr3t")]].
Proof. vm_compute. reflexivity. Qed.

Example create_returns_none_on_412 :
  (create (W := Demo.answering 412) Demo.client "comments" None None
     import_state).1 = Ok None.
Proof. vm_compute. reflexivity. Qed.

Example create_returns_body_on_201 :
  (create (W := Demo.answering 201) Demo.client "comments" None None
     import_state).1 = Ok (Some "body").
Proof. vm_compute. reflexivity. Qed.

Example create_raises_on_401 :
  (create (W := Demo.answering 401) Demo.client "comments" None None
     import_state).1 = Raise auth_error.
Proof. vm_compute. reflexivity. Qed.

Example filter_output_one_rule :
  filter_output (W := Demo.unknown_ip) Demo.client Demo.one_rule =
    PyDict [("id", PyInt 1); ("name", PyStr "x")].
Proof. vm_compute. reflexivity. Qed.

Example filter_output_two_rules :
  filter_output (W := Demo.unknown_ip) Demo.client Demo.two_rules =
    PyList [PyDict [("id", PyInt 1); ("name", PyStr "x")];
            PyDict [("id", PyInt 2); ("name", PyStr "z")]].
Proof. vm_compute. reflexivity. Qed.

Example filter_output_not_json :
  filter_output (W := Demo.unknown_ip) Demo.client "<html>" = PyStr "<html>".
Proof. vm_compute. reflexivity. Qed.

Example filter_output_missing_key :
  filter_output (W := Demo.unknown_ip) Demo.client Demo.partial_rule =
    PyStr Demo.partial_rule.
Proof. vm_compute. reflexivity. Qed.

(** C4, at a rule with one field more than the two requested. *)
Lemma filter_output_spec_witness :
  (filter_on_keys Demo.client = Some ["id"; "name"] /\
   json_loads (World := Demo.unknown_ip) Demo.one_rule =
     Some (PyDict (Demo.rule 1 "x" "y")) /\
   has_keys ["id"; "name"] (Demo.rule 1 "x" "y")) /\
  exists d',
    filter_output (W := Demo.unknown_ip) Demo.client Demo.one_rule = PyDict d' /\
    projection ["id"; "name"] (Demo.rule 1 "x" "y") d'.
Proof.
  assert (H1 : filter_on_keys Demo.client = Some ["id"; "name"])
    by reflexivity.
  assert (H2 : json_loads (World := Demo.unknown_ip) Demo.one_rule =
               Some (PyDict (Demo.rule 1 "x" "y")))
    by (vm_compute; reflexivity).
  assert (H3 : has_keys ["id"; "name"] (Demo.rule 1 "x" "y")).
  { intros k [->|[->|[]%elem_of_nil]%elem_of_cons]%elem_of_cons;
      vm_compute; eauto. }
  split; [exact (conj H1 (conj H2 H3))|].
  exact (proj1 (filter_output_spec (W := Demo.unknown_ip) Demo.client
                  Demo.one_rule) ["id"; "name"] (Demo.rule 1 "x" "y")
           H1 H2 H3).
Defined.

(** C8, at an ip that the service does not know and at one it knows. *)
Lemma get_c2ips_comments_spec_witness :
  (let W := Demo.unknown_ip in
   let run := get_c2ips_id Demo.client "203.0.113.9" import_state in
   let comments := get_c2ips_comments Demo.client "203.0.113.9"
                     import_state in
   (run = (Ok PyNone, run.2) /\ truthy PyNone = false) /\
   comments =
     (Ok PyNone,
      printed (PyStr "IP not found")
        (allocated [("entity_type", PyInt 3); ("entity_id", PyNone)] run.2)) /\
   log comments.2 = log run.2) /\
  (let W := Demo.known_ip in
   let run := get_c2ips_id Demo.client "198.51.100.4" import_state in
   let comments := get_c2ips_comments Demo.client "198.51.100.4"
                     import_state in
   (run = (Ok (PyInt 7), run.2) /\ truthy (PyInt 7) = true) /\
   exists q,
     log comments.2 = log run.2 ++ [(q, serve (log run.2) q)] /\
     req_method q = "GET" /\
     req_url q = url_of Demo.client "/comments" /\
     req_params q =
       with_credentials Demo.client
         [("entity_type", PyInt 3); ("entity_id", PyInt 7)] /\
     forall r, serve (log run.2) q = Some r -> status_code r <> 401%Z ->
       comments.1 = loads (content r)).
Proof.
  split.
  - intros W run comments.
    assert (H : run = (Ok PyNone, run.2)) by (vm_compute; reflexivity).
    split; [by split|].
    apply (get_c2ips_comments_spec (W := W) Demo.client
             "203.0.113.9" import_state PyNone run.2 H).
    reflexivity.
  - intros W run comments.
    assert (H : run = (Ok (PyInt 7), run.2)) by (vm_compute; reflexivity).
    split; [by split|].
    apply (get_c2ips_comments_spec (W := W) Demo.client
             "198.51.100.4" import_state (PyInt 7) run.2 H).
    reflexivity.
Defined.

(** C8 does not hold for an entity whose id is 0: the lookup finds it, and
    [get_c2ips_comments] prints its message, returns [None] and does not ask
    for the comments. *)
Lemma get_c2ips_comments_drops_id_0 :
  let W := Demo2.id_zero in
  let comments := get_c2ips_comments Demo.client "198.51.100.4"
                    import_state in
  (get_c2ips_id Demo.client "198.51.100.4" import_state).1 = Ok (PyInt 0) /\
  comments.1 = Ok PyNone /\
  comments.1 <> loads Demo.two_comments /\
  stdout comments.2 = [PyStr "IP not found"] /\
  (req_url <$> (log comments.2).*1) = [Demo.base +:+ "/c2ips"].
Proof. vm_compute. repeat split; discriminate. Qed.

(** The same lookup at a known ip: the comments request follows. *)
Example get_c2ips_comments_known_ip :
  let run := get_c2ips_comments (W := Demo.known_ip) Demo.client "198.51.100.4"
               import_state in
  run.1 =
    Ok (PyList [PyDict [("date_modified", PyStr "2025-12-01T09:00:00")];
                PyDict [("date_modified", PyStr "2026-01-11T08:30:00")]]) /\
  (req_url <$> (log run.2).*1) =
    [Demo.base +:+ "/c2ips"; Demo.base +:+ "/comments"] /\
  (req_params <$> (log run.2).*1) !! 1 =
    Some [("entity_type", PyInt 3); ("entity_id", PyInt 7);
          ("token", PyStr "t0k3n"); ("secret_key", PyStr "s3cr3t")] /\
  stdout run.2 = [].
Proof. vm_compute. by repeat split. Qed.

(** C10, at an ip that the service does not know. *)
Lemma squelch_check_raises_on_unknown_ip_witness :
  let run := get_c2ips_comments (W := Demo.unknown_ip) Demo.client
               "203.0.113.9" import_state in
  run = (Ok PyNone, run.2) /\
  squelch_check (W := Demo.unknown_ip) Demo.client "203.0.113.9" 7
    import_state = (Raise TypeError, run.2).
Proof.
  intros run.
  assert (H : run = (Ok PyNone, run.2)) by (vm_compute; reflexivity).
  split; [exact H|].
  exact (squelch_check_raises_on_unknown_ip (W := Demo.unknown_ip) Demo.client
           "203.0.113.9" 7 import_state run.2 H).
Defined.

(** C5, at a known ip with an old and a recent comment. *)
Lemma squelch_check_spec_witness :
  let run := get_c2ips_comments (W := Demo.known_ip) Demo.client "198.51.100.4"
               import_state in
  let cs := [PyDict [("date_modified", PyStr "2025-12-01T09:00:00")];
             PyDict [("date_modified", PyStr "2026-01-11T08:30:00")]] in
  (run = (Ok (PyList cs), run.2) /\
   Forall (fun c => is_Some (stamp (H := Demo.known_ip) c)) cs /\
   (forall i, i < length cs ->
      window_ok 7 (clock (World := Demo.known_ip) (ticks run.2 + i)))) /\
  exists b,
    (squelch_check (W := Demo.known_ip) Demo.client "198.51.100.4" 7
       import_state).1 = Ok b /\
    (b = true <->
     exists i c, cs !! i = Some c /\
       recent (H := Demo.known_ip) 7
         (clock (World := Demo.known_ip) (ticks run.2 + i)) c) /\
    (cs = [] -> b = false).
Proof.
  intros run cs.
  assert (H1 : run = (Ok (PyList cs), run.2)) by (vm_compute; reflexivity).
  assert (H2 : Forall (fun c => is_Some (stamp (H := Demo.known_ip) c)) cs).
  { repeat constructor; vm_compute; eauto. }
  assert (H3 : forall i, i < length cs ->
            window_ok 7 (clock (World := Demo.known_ip) (ticks run.2 + i))).
  { intros i _. vm_compute. repeat split; discriminate. }
  split; [exact (conj H1 (conj H2 H3))|].
  exact (squelch_check_spec (W := Demo.known_ip) Demo.client "198.51.100.4" 7
           import_state cs run.2 H1 H2 H3).
Defined.

(** C5 does not hold for every comment list and every day window: with a
    comment that has no [date_modified] before a recent one, and with a
    window of more days than [timedelta] takes, a fetched comment is recent
    and [squelch_check] raises instead of returning true. *)
Lemma squelch_check_raises_despite_recent_comment :
  (let W := Demo2.commented Demo2.undated_then_recent in
   let run := get_c2ips_comments Demo.client "198.51.100.4" import_state in
   run.1 = Ok (PyList [PyDict Demo2.undated_fields; Demo2.recent_comment]) /\
   recent 7 (clock (ticks run.2 + 1)) Demo2.recent_comment /\
   (squelch_check Demo.client "198.51.100.4" 7 import_state).1 =
     Raise (KeyError "date_modified") /\
   (squelch_check Demo.client "198.51.100.4" 7 import_state).1 <> Ok true) /\
  (let W := Demo.known_ip in
   let run := get_c2ips_comments Demo.client "198.51.100.4" import_state in
   let old := PyDict [("date_modified", PyStr "2025-12-01T09:00:00")] in
   (exists rest, run.1 = Ok (PyList (old :: rest))) /\
   recent 1000000000 (clock (ticks run.2)) old /\
   (squelch_check Demo.client "198.51.100.4" 1000000000 import_state).1 =
     Raise OverflowError /\
   (squelch_check Demo.client "198.51.100.4" 1000000000 import_state).1 <>
     Ok true).
Proof.
  split.
  - intros W run.
    split; [vm_compute; reflexivity|]. split.
    { exists 63903717000000000%Z. split; vm_compute; reflexivity. }
    split; [vm_compute; reflexivity|]. vm_compute. discriminate.
  - intros W run old.
    split; [eexists; vm_compute; reflexivity|]. split.
    { exists 63900176400000000%Z. split; vm_compute; reflexivity. }
    split; [vm_compute; reflexivity|]. vm_compute. discriminate.
Qed.

Example squelch_check_within_a_week :
  (squelch_check (W := Demo.known_ip) Demo.client "198.51.100.4" 7
     import_state).1 = Ok true.
Proof. vm_compute. reflexivity. Qed.

Example squelch_check_within_no_time :
  (squelch_check (W := Demo.known_ip) Demo.client "198.51.100.4" 0
     import_state).1 = Ok false.
Proof. vm_compute. reflexivity. Qed.

(** C3, at a [comment] command with no argument after its name. *)
Lemma missing_arguments_raise_unbound_local_witness :
  length (@nil string) < 3 /\
  comment (W := Demo.answering 200) Demo.client ["comment"] import_state =
    (Raise (UnboundLocalError "comment"), import_state).
Proof.
  assert (H : length (@nil string) < 3) by (simpl; lia).
  split; [exact H|].
  exact (proj1 (proj2 (missing_arguments_raise_unbound_local
                         (W := Demo.answering 200) Demo.client "comment" []
                         import_state)) H).
Defined.

Example attach_with_one_argument :
  attach (W := Demo.answering 200) Demo.client ["attach"; "yara_rule"]
    import_state = (Raise (UnboundLocalError "artifact"), import_state).
Proof. reflexivity. Qed.

Example comment_scenario_prints_body :
  let run := comment (W := Demo.answering 200) Demo.client
               ["comment"; "yara_rule"; "42"; "test comment"] import_state in
  run.1 = Ok tt /\
  stdout run.2 = [PyStr "body"] /\
  (req_json <$> (log run.2).*1) =
    [PyStr ("{" +:+ Demo.quoted "comment" +:+ ": " +:+
            Demo.quoted "test comment" +:+ ", " +:+
            Demo.quoted "entity_type" +:+ ": 1, " +:+
            Demo.quoted "entity_id" +:+ ": " +:+ Demo.quoted "42" +:+ "}")].
Proof. vm_compute. by repeat split. Qed.

(** * Further properties of the client *)

Section MoreClientFacts.
Context `{W : World}.
Variable self : ThreatKB.

(** X1. [delete] with a string id issues one DELETE to [endpoint/id]; its
    result is true exactly when the answer has status 200, and false for
    every other status but 401. *)
Theorem delete_true_iff_200 endpoint s (st : state) :
  let m := delete self endpoint (IdStr s) in
  exists q,
    issued m st = [(q, serve (log st) q)] /\
    req_method q = "DELETE" /\
    req_url q = url_of self (endpoint +:+ "/" +:+ s) /\
    forall r, serve (log st) q = Some r ->
      ((m st).1 = Ok true <-> status_code r = 200%Z) /\
      (status_code r <> 200%Z -> status_code r <> 401%Z ->
         (m st).1 = Ok false).
Proof.
  intros m. eexists. split; [|split; [|split]].
  - eapply issued_logged; [apply delete_run | done].
  - done.
  - done.
  - intros r Hr. unfold m. rewrite delete_run, Hr. unfold outcome_of, rbind.
    destruct (status_code r =? 401)%Z eqn:E401; simpl.
    + apply Z.eqb_eq in E401. split; [|lia]. split; [done | lia].
    + destruct (status_code r =? 200)%Z eqn:E200.
      * apply Z.eqb_eq in E200. split; [done | lia].
      * apply Z.eqb_neq in E200. split; [|done]. split; [done | lia].
Qed.

(** X2. [delete], and with it [delete_rule], [delete_c2dns] and
    [delete_c2ips], joins the endpoint and the id as strings: with an
    integer id, or with none, it raises [TypeError] and leaves the state as
    it was, so that no request is issued. *)
Theorem delete_rejects_integer_ids endpoint n (st : state) :
  delete self endpoint (IdInt n) st = (Raise TypeError, st) /\
  delete self endpoint IdNone st = (Raise TypeError, st) /\
  delete_rule self (IdInt n) st = (Raise TypeError, st) /\
  delete_c2dns self (IdInt n) st = (Raise TypeError, st) /\
  delete_c2ips self (IdInt n) st = (Raise TypeError, st).
Proof. by repeat split. Qed.

(** X3. An id that is [None], zero or the empty string is no id: [get],
    [update] and [get_rule] then do exactly what they do without one, and
    address the collection. *)
Theorem falsy_id_is_no_id (id_ : pyid) (st : state) :
  id_truthy id_ = false ->
  (forall endpoint params,
     get self endpoint id_ params st = get self endpoint IdNone params st) /\
  (forall endpoint json_data,
     update self endpoint id_ json_data st =
       update self endpoint IdNone json_data st) /\
  get_rule self id_ st = get_rule self IdNone st.
Proof.
  intros Hid.
  assert (Hs : id_suffix id_ = id_suffix IdNone)
    by (unfold id_suffix; by rewrite Hid).
  split; [|split]; intros.
  - unfold get. by rewrite Hs.
  - unfold update. by rewrite Hs.
  - unfold get_rule, get. by rewrite Hs.
Qed.

(** X4. [get] and [update] issue one request, to [endpoint/str(id)] for an
    id that counts as true, and return the body of the answer whatever its
    status, 401 apart: an error page of the service is returned like any
    other body. *)
Theorem get_and_update_return_any_body endpoint (id_ : pyid) (st : state) :
  id_truthy id_ = true ->
  (forall params,
     let m := get self endpoint id_ params in
     exists q,
       issued m st = [(q, serve (log st) q)] /\
       req_method q = "GET" /\
       req_url q = url_of self (endpoint +:+ "/" +:+ id_str id_) /\
       req_json q = PyNone /\
       forall r, serve (log st) q = Some r -> status_code r <> 401%Z ->
         (m st).1 = Ok (content r)) /\
  (forall v,
     let m := update self endpoint id_ (Some (Imm v)) in
     exists q,
       issued m st = [(q, serve (log st) q)] /\
       req_method q = "PUT" /\
       req_url q = url_of self (endpoint +:+ "/" +:+ id_str id_) /\
       req_json q = v /\
       forall r, serve (log st) q = Some r -> status_code r <> 401%Z ->
         (m st).1 = Ok (content r)).
Proof.
  intros Hid.
  assert (Hs : id_suffix id_ = "/" +:+ id_str id_)
    by (unfold id_suffix; by rewrite Hid).
  split; intros; eexists; (split; [|split; [|split; [|split]]]).
  - eapply issued_logged; [apply get_run | done].
  - done.
  - simpl. by rewrite Hs.
  - done.
  - intros r Hr H401. unfold m. rewrite get_run, Hr. simpl.
    apply Z.eqb_neq in H401. by rewrite H401.
  - eapply issued_logged; [apply update_run | done].
  - done.
  - simpl. by rewrite Hs.
  - done.
  - intros r Hr H401. unfold m. rewrite update_run, Hr. simpl.
    apply Z.eqb_neq in H401. by rewrite H401.
Qed.

(** X5. No operation tries again: when the transport fails, [get],
    [update], [delete] and [create] have issued exactly one request and
    raise the transport's exception. *)
Theorem transport_failure_is_not_retried (st : state) :
  (forall endpoint id_ params,
     let m := get self endpoint id_ params in
     exists q, issued m st = [(q, serve (log st) q)] /\
       (serve (log st) q = None -> (m st).1 = Raise ConnectionError)) /\
  (forall endpoint id_ json_data,
     let m := update self endpoint id_ json_data in
     exists q, issued m st = [(q, serve (log st) q)] /\
       (serve (log st) q = None -> (m st).1 = Raise ConnectionError)) /\
  (forall endpoint s,
     let m := delete self endpoint (IdStr s) in
     exists q, issued m st = [(q, serve (log st) q)] /\
       (serve (log st) q = None -> (m st).1 = Raise ConnectionError)) /\
  (forall endpoint json_data files,
     let m := create self endpoint json_data files in
     exists q, issued m st = [(q, serve (log st) q)] /\
       (serve (log st) q = None -> (m st).1 = Raise ConnectionError)).
Proof.
  split; [|split; [|split]]; intros; eexists; split.
  - eapply issued_logged; [apply get_run | done].
  - intros Hr. unfold m. by rewrite get_run, Hr.
  - eapply issued_logged; [apply update_run | done].
  - intros Hr. unfold m. by rewrite update_run, Hr.
  - eapply issued_logged; [apply delete_run | done].
  - intros Hr. unfold m. by rewrite delete_run, Hr.
  - eapply issued_logged; [apply create_run | done].
  - intros Hr. unfold m. by rewrite create_run, Hr.
Qed.

(** X6. [create] sends either files or JSON, never both: with a non-empty
    [files] dictionary the request carries the files and no JSON body, the
    [json_data] argument being ignored; with an empty one it carries the
    JSON payload. *)
Theorem create_sends_files_or_json endpoint v (files : loc) (st : state) :
  files <> _request_uri_params ->
  obj st _request_files = [] ->
  let m := create self endpoint (Some (Imm v)) (Some files) in
  exists q,
    issued m st = [(q, serve (log st) q)] /\
    (obj st files <> [] ->
       req_json q = PyNone /\ req_files q = Some (obj st files)) /\
    (obj st files = [] -> req_json q = v /\ req_files q = None).
Proof.
  intros Hfiles Hdefault m.
  exists (create_request self endpoint (Some (Imm v)) (Some files) st).
  split; [eapply issued_logged; [apply create_run | done]|].
  unfold create_request. simpl default.
  split; intros Hf.
  - destruct (obj st files) as [|e fd] eqn:E; [done|]. simpl.
    rewrite obj_credentials_set_ne by done. by rewrite E.
  - rewrite Hf. simpl.
    rewrite obj_credentials_set_ne by done. by rewrite Hdefault.
Qed.

(** X28. A client without filter keys filters nothing: [filter_output]
    returns the text it was given or the empty list, and the empty list
    exactly when the text parses to a value that is no mapping and that a
    loop runs over zero times, which is the empty sequence or the empty
    string. *)
Theorem filter_output_without_keys (output : string) :
  filter_on_keys self = None ->
  (filter_output self output = PyStr output \/
   filter_output self output = PyList []) /\
  (filter_output self output = PyList [] <->
   exists v, json_loads output = Some v /\
             (v = PyList [] \/ v = PyStr EmptyString)).
Proof.
  intros Hkeys. unfold filter_output, filter_output_try, loads.
  rewrite Hkeys.
  destruct (json_loads output) as [v|]; simpl.
  2: { split; [by left|]. split; [done | by intros (v & ? & _)]. }
  assert (Hno : forall w, Some v = Some w -> (w = PyList [] \/
                 w = PyStr EmptyString) -> v = PyList [] \/
                 v = PyStr EmptyString) by (by intros w [= <-]).
  destruct v as [| | | |s|l| |]; simpl;
    try (split; [by left|]; split; [done|];
         intros (w & Hw & Hv); by destruct (Hno w Hw Hv)).
  - destruct s as [|c s].
    + split; [by right|]. split; [|done]. intros _. eexists. eauto.
    + assert (Hc : exists x xs, chars (String c s) = x :: xs).
      { unfold chars. cbn [characters].
        destruct (characters s); [by eexists _, _|].
        destruct (continued s); by eexists _, _. }
      destruct Hc as (x & xs & ->). simpl.
      split; [by left|]. split; [done|].
      intros (w & Hw & Hv). by destruct (Hno w Hw Hv).
  - destruct l as [|o l]; simpl.
    + split; [by right|]. split; [|done]. intros _. eexists. eauto.
    + split; [by left|]. split; [done|].
      intros (w & Hw & Hv). by destruct (Hno w Hw Hv).
Qed.

End MoreClientFacts.

(** * Further properties of the helper *)

Lemma map_result_Forall2 {A B} (f : A -> result B) l l' :
  Forall2 (fun x y => f x = Ok y) l l' -> map_result f l = Ok l'.
Proof.
  induction 1 as [|x y l l' Hxy _ IH]; simpl; [done|].
  by rewrite Hxy, IH.
Qed.

Section MoreHelperFacts.
Context `{W : World}.
Variable self : ThreatKB.

(** X7. [get_rule_id_by_name] issues one GET to [/yara_rules].  When the
    answer's [total_count] counts as false the result is the empty list,
    whatever [data] holds; otherwise it is the list of the [id] fields of
    the items of [data], one per item and in their order. *)
Theorem get_rule_id_by_name_spec name (st : state) r d total_count :
  let search := [("searches",
                  PyStr ("{" +:+ dq +:+ "name" +:+ dq +:+ ": " +:+
                         dq +:+ name +:+ dq +:+ "}"))] in
  let q := built_request self "GET" "/yara_rules" (next st) (Imm PyNone)
             _request_files _request_headers
             (credentials_set self (next st) (allocated search st)) in
  serve (log st) q = Some r ->
  status_code r <> 401%Z ->
  json_loads (content r) = Some (PyDict d) ->
  dict_get d "total_count" = Some total_count ->
  issued (get_rule_id_by_name self name) st = [(q, Some r)] /\
  (truthy total_count = false ->
     (get_rule_id_by_name self name st).1 = Ok []) /\
  (truthy total_count = true ->
     forall items ids,
       dict_get d "data" = Some (PyList items) ->
       Forall2 (fun item id_ => subscript item "id" = Ok id_) items ids ->
       (get_rule_id_by_name self name st).1 = Ok ids).
Proof.
  intros search q Hr H401 Hload Hcount.
  apply Z.eqb_neq in H401.
  assert (Hlog : drop (length (log st)) (log st ++ [(q, Some r)]) =
                 [(q, Some r)]) by apply drop_app_length.
  unfold issued, get_rule_id_by_name, bind, alloc. cbv beta iota zeta.
  fold search. fold (allocated search st). rewrite get_run. cbv zeta.
  change (log (allocated search st)) with (log st).
  change (default get_params (Some (next st))) with (next st).
  change ("/yara_rules" +:+ id_suffix IdNone) with "/yara_rules".
  fold q. rewrite Hr. simpl outcome_of. rewrite H401. simpl rbind.
  cbv beta iota. unfold lift, loads. rewrite Hload. simpl subscript.
  rewrite Hcount. cbv beta iota.
  destruct (truthy total_count).
  - split; [|split; [done|]].
    + simpl. destruct (dict_get d "data") as [v|]; [|done].
      by destruct (iterate v).
    + intros _ items ids Hdata Hids. simpl. rewrite Hdata. simpl.
      by rewrite (map_result_Forall2 _ _ _ Hids).
  - by repeat split.
Qed.

(** X8. [delete_rule_by_name] does nothing more than the lookup when no
    rule has the name: it returns [None].  Otherwise it follows the lookup
    with one PUT to [/yara_rules/delete] whose JSON body is the mapping of
    [batch] to the ids found, and returns the body of the answer. *)
Theorem delete_rule_by_name_spec name (st : state) ids st1 :
  get_rule_id_by_name self name st = (Ok ids, st1) ->
  next st1 <> _request_uri_params ->
  (ids = [] -> delete_rule_by_name self name st = (Ok None, st1)) /\
  (ids <> [] ->
     exists q,
       log (delete_rule_by_name self name st).2 =
         log st1 ++ [(q, serve (log st1) q)] /\
       req_method q = "PUT" /\
       req_url q = url_of self "/yara_rules/delete" /\
       req_json q = PyDict [("batch", PyList ids)] /\
       forall r, serve (log st1) q = Some r -> status_code r <> 401%Z ->
         (delete_rule_by_name self name st).1 = Ok (Some (content r))).
Proof.
  intros Hids Hnext. unfold delete_rule_by_name, bind. rewrite Hids.
  split.
  - by intros ->.
  - intros Hne. destruct ids as [|i ids]; [done|]. cbv beta iota.
    unfold truthy, delete_rule_batch, bind, alloc. cbv beta iota zeta.
    fold (allocated [("batch", PyList (i :: ids))] st1).
    rewrite update_run. cbv zeta.
    set (st2 := allocated _ st1).
    set (q := built_request self "PUT" _ _ _ _ _ _).
    change (log st2) with (log st1).
    exists q. split; [|split; [|split; [|split]]].
    + by destruct (outcome_of (serve (log st1) q)).
    + done.
    + done.
    + unfold q. simpl. rewrite obj_credentials_set_ne by done.
      unfold st2, allocated, obj. simpl. by rewrite lookup_total_insert_eq.
    + intros r Hr H401. rewrite Hr. simpl.
      apply Z.eqb_neq in H401. by rewrite H401.
Qed.

(** X9. [discard_rule] fetches the rule, and when the answer is a mapping
    it follows with one PUT to the rule whose body is the text that
    [json.dumps] makes of the rule with [state] set to [Discarded], the
    other fields being those fetched.  When the answer is anything else it
    raises [TypeError] and issues no PUT. *)
Theorem discard_rule_spec rule_id (st : state) rule st1 :
  get_rule self rule_id st = (Ok rule, st1) ->
  (forall d, rule = PyDict d ->
     exists q d',
       log (discard_rule self rule_id st).2 =
         log st1 ++ [(q, serve (log st1) q)] /\
       req_method q = "PUT" /\
       req_url q = url_of self ("/yara_rules" +:+ id_suffix rule_id) /\
       req_json q = PyStr (json_dumps (PyDict d')) /\
       dict_get d' "state" = Some (PyStr "Discarded") /\
       forall k, k <> "state" -> dict_get d' k = dict_get d k) /\
  ((forall d, rule <> PyDict d) ->
     discard_rule self rule_id st = (Raise TypeError, st1)).
Proof.
  intros Hrule. unfold discard_rule, bind. rewrite Hrule. split.
  - intros d ->. unfold lift, assign. cbv beta iota.
    rewrite update_run. cbv zeta.
    set (q := built_request self "PUT" _ _ _ _ _ _).
    exists q, (dict_set "state" (PyStr "Discarded") d).
    split; [|split; [|split; [|split; [|split]]]].
    + by destruct (outcome_of (serve (log st1) q)).
    + done.
    + done.
    + done.
    + apply dict_get_set_eq.
    + intros k Hk. by apply dict_get_set_ne.
  - intros Hnot. destruct rule; try done. by destruct (Hnot entries).
Qed.

(** X10. [get_c2ips_id] takes the first match: when the answer counts at
    least one match and [data] is not empty, the result is the [id] of the
    first item, whatever follows it. *)
Theorem get_c2ips_id_first_match ip (st : state) r d total_count item rest :
  let search := [("searches",
                  PyStr ("{" +:+ dq +:+ "ip" +:+ dq +:+ ":" +:+
                         dq +:+ ip +:+ dq +:+ "}"))] in
  let q := built_request self "GET" "/c2ips" (next st) (Imm PyNone)
             _request_files _request_headers
             (credentials_set self (next st) (allocated search st)) in
  serve (log st) q = Some r ->
  status_code r <> 401%Z ->
  json_loads (content r) = Some (PyDict d) ->
  dict_get d "total_count" = Some total_count ->
  truthy total_count = true ->
  dict_get d "data" = Some (PyList (item :: rest)) ->
  (get_c2ips_id self ip st).1 = subscript item "id" /\
  issued (get_c2ips_id self ip) st = [(q, Some r)].
Proof.
  intros search q Hr H401 Hload Hcount Htrue Hdata.
  apply Z.eqb_neq in H401.
  assert (Hlog : drop (length (log st)) (log st ++ [(q, Some r)]) =
                 [(q, Some r)]) by apply drop_app_length.
  unfold issued, get_c2ips_id, bind, alloc. cbv beta iota zeta.
  fold search. fold (allocated search st). rewrite get_run. cbv zeta.
  change (log (allocated search st)) with (log st).
  change (default get_params (Some (next st))) with (next st).
  change ("/c2ips" +:+ id_suffix IdNone) with "/c2ips".
  fold q. rewrite Hr. simpl outcome_of. rewrite H401. simpl rbind.
  cbv beta iota. unfold lift, loads. rewrite Hload. simpl subscript.
  rewrite Hcount. cbv beta iota. rewrite Htrue. simpl subscript.
  rewrite Hdata. by split.
Qed.

(** X11. [squelch_check] stops at the first recent comment: when the first
    comment fetched is recent the result is true after a single reading of
    the clock, whatever the other comments are. *)
Theorem squelch_check_stops_at_first_recent ip days (st : state) c rest st1 :
  get_c2ips_comments self ip st = (Ok (PyList (c :: rest)), st1) ->
  window_ok days (clock (ticks st1)) ->
  recent days (clock (ticks st1)) c ->
  squelch_check self ip days st = (Ok true, ticked st1).
Proof.
  intros Hc Hwin (d & Hd & Hlt).
  unfold squelch_check, bind. rewrite Hc. unfold lift, iterate.
  cbv beta iota. rewrite (squelch_loop_step _ _ _ _ _ Hd Hwin).
  by apply Z.ltb_lt in Hlt as ->.
Qed.

(** X12. [squelch_check] fails on the first comment it cannot date: when
    the first comment fetched is a mapping without [date_modified] it
    raises [KeyError], even if a later comment is recent. *)
Theorem squelch_check_raises_on_undated_comment
    ip days (st : state) fields rest st1 :
  get_c2ips_comments self ip st = (Ok (PyList (PyDict fields :: rest)), st1) ->
  window_ok days (clock (ticks st1)) ->
  dict_get fields "date_modified" = None ->
  squelch_check self ip days st =
    (Raise (KeyError "date_modified"), ticked st1).
Proof.
  intros Hc [Htd Hsub]%window_ok_sub Hkey.
  unfold squelch_check, bind. rewrite Hc. unfold lift at 1, iterate.
  cbv beta iota. simpl. unfold bind, datetime_now, lift. fold (ticked st1).
  by rewrite Htd, Hsub, Hkey.
Qed.

End MoreHelperFacts.

(** * Further properties of the commands *)

Section MoreCliFacts.
Context `{W : World}.
Variable cli : ThreatKB.

(** X13. [release] never fails for want of an argument: without a release
    id (or with an empty one) it issues one GET to [releases], with one to
    [releases/id]; the query always holds [short] 0 beside the
    credentials, arguments after the id are ignored, and the body of the
    answer is printed. *)
Theorem release_spec params (st : state) :
  let uri := "releases" +:+
             match params !! 1 with
             | Some s => if String.eqb s EmptyString then EmptyString
                         else "/" +:+ s
             | None => EmptyString
             end in
  exists q,
    issued (release cli params) st = [(q, serve (log st) q)] /\
    req_method q = "GET" /\
    req_url q = url_of cli uri /\
    req_params q = with_credentials cli [("short", PyInt 0)] /\
    forall r, serve (log st) q = Some r -> status_code r <> 401%Z ->
      (release cli params st).1 = Ok tt /\
      stdout (release cli params st).2 = stdout st ++ [PyStr (content r)].
Proof.
  intros uri. unfold issued, release, bind, alloc. cbv beta iota zeta.
  fold (allocated [("short", PyInt 0)] st). rewrite get_run. cbv zeta.
  set (st0 := allocated _ st).
  change (default get_params (Some (next st))) with (next st).
  set (q := built_request cli "GET" _ _ _ _ _ _).
  change (log st0) with (log st).
  exists q. split; [|split; [|split; [|split]]].
  - destruct (outcome_of (serve (log st) q)); simpl;
      by rewrite drop_app_length.
  - done.
  - unfold q, uri. simpl. do 2 f_equal. unfold id_suffix.
    destruct (params !! 1) as [s|]; [|done]. simpl.
    by destruct (String.eqb s EmptyString).
  - unfold q. simpl. rewrite obj_credentials_set_eq.
    unfold st0, allocated, obj. simpl. by rewrite lookup_total_insert_eq.
  - intros r Hr H401. rewrite Hr. simpl.
    apply Z.eqb_neq in H401. by rewrite H401.
Qed.

(** X14. [search] with a filter and a text issues one GET to [search] whose
    query is that one pair beside the credentials, and prints the body.  A
    filter called [token] does not reach the service: the session's token
    is written over its text. *)
Theorem search_spec prog filter_ filter_text (st : state) :
  let m := search cli [prog; filter_; filter_text] in
  exists q,
    issued m st = [(q, serve (log st) q)] /\
    req_method q = "GET" /\
    req_url q = url_of cli "search" /\
    req_params q = with_credentials cli [(filter_, PyStr filter_text)] /\
    (filter_ = "token" ->
       req_params q = [("token", PyStr (token cli));
                       ("secret_key", PyStr (secret_key cli))]) /\
    forall r, serve (log st) q = Some r -> status_code r <> 401%Z ->
      (m st).1 = Ok tt /\ stdout (m st).2 = stdout st ++ [PyStr (content r)].
Proof.
  intros m. unfold m, issued, search, bind.
  change (drop 1 [prog; filter_; filter_text]) with [filter_; filter_text].
  cbv beta iota. unfold load_local, ret, alloc. cbv beta iota zeta.
  fold (allocated [(filter_, PyStr filter_text)] st).
  rewrite get_run. cbv zeta.
  set (st0 := allocated _ st).
  change (default get_params (Some (next st))) with (next st).
  set (q := built_request cli "GET" _ _ _ _ _ _).
  change (log st0) with (log st).
  assert (Hparams : req_params q =
            with_credentials cli [(filter_, PyStr filter_text)]).
  { unfold q. simpl. rewrite obj_credentials_set_eq.
    unfold st0, allocated, obj. simpl. by rewrite lookup_total_insert_eq. }
  exists q. split; [|split; [|split; [|split; [|split]]]].
  - destruct (outcome_of (serve (log st) q)); simpl;
      by rewrite drop_app_length.
  - done.
  - done.
  - done.
  - intros ->. by rewrite Hparams.
  - intros r Hr H401. rewrite Hr. simpl.
    apply Z.eqb_neq in H401. by rewrite H401.
Qed.

(** X15. [attach] opens the file before anything is sent: when the file
    cannot be opened it raises and the state is as before.  Otherwise it
    issues one POST to [file_upload] that carries, as files and without a
    JSON body, the artifact name as given, the id and the open file. *)
Theorem attach_spec prog artifact artifact_id file (st : state) :
  next st <> _request_uri_params ->
  let m := attach cli [prog; artifact; artifact_id; file] in
  (readable file = false -> m st = (Raise (IOError file), st)) /\
  (readable file = true ->
     exists q,
       issued m st = [(q, serve (log st) q)] /\
       req_method q = "POST" /\
       req_url q = url_of cli "file_upload" /\
       req_json q = PyNone /\
       req_files q = Some [("entity_type", PyStr artifact);
                           ("entity_id", PyStr artifact_id);
                           ("file", PyFile file)]).
Proof.
  intros Hnext m. unfold m, issued, attach, bind.
  change (drop 1 [prog; artifact; artifact_id; file])
    with [artifact; artifact_id; file].
  cbv beta iota. unfold load_local, ret, open_rb. cbv beta iota.
  split; intros Hfile; rewrite Hfile; [done|].
  unfold alloc, ret. cbv beta iota zeta.
  set (files := [("entity_type", PyStr artifact);
                 ("entity_id", PyStr artifact_id); ("file", PyFile file)]).
  fold (allocated files st). rewrite create_run. cbv zeta.
  set (st0 := allocated files st).
  assert (Hobj : obj st0 (next st) = files).
  { unfold st0, allocated, obj. simpl. by rewrite lookup_total_insert_eq. }
  assert (Hq : create_request cli "file_upload" None (Some (next st)) st0 =
               built_request cli "POST" "file_upload" _request_uri_params
                 (Imm PyNone) (next st) _request_headers
                 (credentials_set cli _request_uri_params st0)).
  { unfold create_request. simpl default. by rewrite Hobj. }
  rewrite Hq. set (q := built_request cli "POST" _ _ _ _ _ _).
  change (log st0) with (log st).
  exists q. split; [|split; [|split; [|split]]].
  - destruct (outcome_of (serve (log st) q)) as [r|]; simpl.
    + destruct (status_code r =? 412)%Z; simpl; by rewrite drop_app_length.
    + by rewrite drop_app_length.
  - done.
  - done.
  - done.
  - unfold q. simpl. rewrite obj_credentials_set_ne by done.
    by rewrite Hobj.
Qed.

(** X16. [comment] does not check the artifact name: it issues its POST for
    any name, and the [entity_type] of the encoded object is [None] exactly
    when the name is none of [yara_rule], [c2dns], [c2ip] and [task]. *)
Theorem comment_sends_unknown_artifacts
    prog artifact artifact_id text (st : state) :
  obj st create_files = [] ->
  let m := comment cli [prog; artifact; artifact_id; text] in
  exists q entity_type,
    issued m st = [(q, serve (log st) q)] /\
    req_method q = "POST" /\
    req_url q = url_of cli "comments" /\
    req_json q =
      PyStr (json_dumps (PyDict [("comment", PyStr text);
                                 ("entity_type", entity_type);
                                 ("entity_id", PyStr artifact_id)])) /\
    (entity_type = PyNone <->
     artifact ∉ ["yara_rule"; "c2dns"; "c2ip"; "task"]).
Proof.
  intros Hfiles m. unfold m, issued, comment, bind.
  change (drop 1 [prog; artifact; artifact_id; text])
    with [artifact; artifact_id; text].
  cbv beta iota. unfold load_local, ret. cbv beta iota.
  set (entity_type := default PyNone (dict_get ENTITY_TYPES artifact)).
  rewrite create_run. cbv zeta.
  set (q := create_request cli "comments" _ None st).
  exists q, entity_type. split; [|split; [|split; [|split]]].
  - destruct (outcome_of (serve (log st) q)) as [r|]; simpl.
    + destruct (status_code r =? 412)%Z; simpl; by rewrite drop_app_length.
    + by rewrite drop_app_length.
  - unfold q, create_request. simpl default. by rewrite Hfiles.
  - unfold q, create_request. simpl default. by rewrite Hfiles.
  - unfold q, create_request. simpl default. by rewrite Hfiles.
  - unfold entity_type, ENTITY_TYPES. cbn [dict_get].
    rewrite !not_elem_of_cons.
    destruct (String.eqb_spec "yara_rule" artifact) as [<-|H1];
      [split; [done | tauto]|].
    destruct (String.eqb_spec "c2dns" artifact) as [<-|H2];
      [split; [done | tauto]|].
    destruct (String.eqb_spec "c2ip" artifact) as [<-|H3];
      [split; [done | tauto]|].
    destruct (String.eqb_spec "task" artifact) as [<-|H4];
      [split; [done | tauto]|].
    split; [|done]. intros _.
    repeat split; try congruence. apply not_elem_of_nil.
Qed.

(** X17. A wrong number of arguments is handled like a missing one, also
    when there are too many: [attach] and [comment] with other than three
    arguments, and [search] with other than two, raise [UnboundLocalError]
    and leave the state as it was. *)
Theorem wrong_argument_count_raises prog args (st : state) :
  (length args <> 3 ->
     attach cli (prog :: args) st = (Raise (UnboundLocalError "artifact"), st) /\
     comment cli (prog :: args) st = (Raise (UnboundLocalError "comment"), st)) /\
  (length args <> 2 ->
     search cli (prog :: args) st = (Raise (UnboundLocalError "filter_"), st)).
Proof.
  split; intros Hlen.
  - by destruct args as [|a1 [|a2 [|a3 [|a4 args]]]].
  - by destruct args as [|a1 [|a2 [|a3 args]]].
Qed.

End MoreCliFacts.

Lemma same_session_commands `{W : World} (c c' : ThreatKB)
    params (st : state) :
  same_session c c' ->
  attach c params st = attach c' params st /\
  comment c params st = comment c' params st /\
  search c params st = search c' params st /\
  release c params st = release c' params st.
Proof.
  destruct c, c'. unfold same_session. simpl.
  intros (-> & -> & -> & -> & ->). by repeat split.
Qed.

(** X18. No command reads the filter keys of the client: two clients that
    differ only in them do the same, in every state. *)
Theorem commands_ignore_filter_keys `{W : World} (c c' : ThreatKB)
    params (st : state) :
  same_session c c' ->
  attach c params st = attach c' params st /\
  comment c params st = comment c' params st /\
  search c params st = search c' params st /\
  release c params st = release c' params st.
Proof. apply same_session_commands. Qed.

(** * Further properties of the start-up code *)

Lemma list_of_string_app (a b : string) :
  list_ascii_of_string (a +:+ b) =
    list_ascii_of_string a ++ list_ascii_of_string b.
Proof. induction a as [|c a IH]; simpl; [done | by rewrite IH]. Qed.

Lemma truthy_str (s : string) : s <> EmptyString -> truthy (PyStr s) = true.
Proof. intros Hs. simpl. by apply String.eqb_neq in Hs as ->. Qed.

Lemma joined_characters (s : string) : joined (characters s) = s.
Proof.
  induction s as [|c s IH]; [done|]. cbn [characters].
  destruct (characters s) as [|ch chs]; [by rewrite <- IH|].
  destruct (continued s); by rewrite <- IH.
Qed.

Lemma characters_leading (c : ascii) (t : string) :
  continued t = false ->
  characters (String c t) = String c EmptyString :: characters t.
Proof.
  intros Ht. cbn [characters]. destruct (characters t); [done|].
  by rewrite Ht.
Qed.

(** Every character but the first begins with a leading byte, and the
    characters of a text are again the characters of what they join to. *)
Lemma characters_drop (s : string) (k : nat) :
  characters (joined (drop k (characters s))) = drop k (characters s) /\
  (0 < k -> continued (joined (drop k (characters s))) = false).
Proof.
  revert k. induction s as [|c s IH]; intros k.
  { by destruct k. }
  destruct k as [|k].
  { split; [|lia]. rewrite drop_0. by rewrite joined_characters. }
  cbn [characters].
  destruct (characters s) as [|ch chs] eqn:E; [by destruct k|].
  destruct (continued s) eqn:Hs.
  - change (drop (S k) (String c ch :: chs))
      with (drop (S k) (ch :: chs)).
    destruct (IH (S k)) as [H1 H2]. split; [done|]. intros _. apply H2. lia.
  - change (drop (S k) (String c EmptyString :: ch :: chs))
      with (drop k (ch :: chs)).
    destruct (IH k) as [H1 H2]. split; [done|]. intros _.
    destruct k as [|k]; [|apply H2; lia].
    rewrite drop_0, <- E. by rewrite joined_characters.
Qed.

Lemma characters_stars (n : nat) (t : string) :
  continued t = false ->
  characters (stars n +:+ t) =
    replicate n (String (ascii_of_nat 42) EmptyString) ++ characters t.
Proof.
  intros Ht. induction n as [|n IH]; [done|].
  change (stars (S n) +:+ t)
    with (String (ascii_of_nat 42) (stars n +:+ t)).
  rewrite characters_leading; [by rewrite IH|].
  destruct n; [done | reflexivity].
Qed.

Lemma characters_masked (s : string) :
  s <> EmptyString ->
  characters (masked (Some s)) =
    replicate (len s - 3) (String (ascii_of_nat 42) EmptyString) ++
    drop (len s - 3) (characters s).
Proof.
  intros Hs. unfold masked. rewrite (truthy_str s Hs). unfold last_three.
  destruct (characters_drop s (len s - 3)) as [H1 H2].
  destruct (len s - 3) as [|k] eqn:E.
  - by rewrite drop_0, joined_characters.
  - rewrite characters_stars; [by rewrite H1 | apply H2; lia].
Qed.

(** X19. What [configure] shows of a stored value has as many characters
    as the value and hides all but its last three; a value of three
    characters or fewer is therefore shown whole.  Without a value, ten
    stars are shown. *)
Theorem masked_spec (s : string) :
  masked None = stars 10 /\
  masked (Some EmptyString) = stars 10 /\
  (s <> EmptyString ->
     len (masked (Some s)) = len s /\
     take (len s - 3) (characters (masked (Some s))) =
       replicate (len s - 3) (String (ascii_of_nat 42) EmptyString) /\
     drop (len s - 3) (characters (masked (Some s))) =
       drop (len s - 3) (characters s)) /\
  (s <> EmptyString -> len s <= 3 -> masked (Some s) = s).
Proof.
  split; [done|]. split; [done|]. split.
  - intros Hs. pose proof (characters_masked s Hs) as Hlist.
    split; [|split].
    + unfold len at 1. rewrite Hlist.
      rewrite length_app, length_replicate, length_drop.
      unfold len. lia.
    + rewrite Hlist, take_app_length'; [done|]. by rewrite length_replicate.
    + rewrite Hlist, drop_app_length'; [done|]. by rewrite length_replicate.
  - intros Hs Hlen. pose proof (characters_masked s Hs) as Hlist.
    replace (len s - 3) with 0 in Hlist by lia.
    rewrite <- (joined_characters (masked (Some s))), Hlist.
    apply joined_characters.
Qed.

Lemma endswith_slash_app (h : string) : endswith "/" (h +:+ "/") = true.
Proof.
  unfold endswith. apply bool_decide_eq_true.
  rewrite list_of_string_app. by apply suffix_app_r.
Qed.

(** X20. [initialize] succeeds exactly when the credentials file gives a
    token, a secret key and a host.  The host it keeps ends with a slash;
    the client talks plain http exactly when that host begins with the
    lower-case text [http://]; the token and the secret key are taken as
    stored, and the globals [API_KEY] and [SECRET_KEY] are not set.  In
    every other case it raises the error that asks to run [configure]. *)
Theorem initialize_spec `{T : Text}
    (config_get : string -> option string) prog g :
  match config_get "token", config_get "secret_key",
        config_get "api_host" with
  | Some t, Some s, Some h =>
      exists g' h' cli,
        initialize config_get prog g = Ok g' /\
        API_HOST g' = Some h' /\
        (h' = h \/ h' = h +:+ "/") /\
        endswith "/" h' = true /\
        THREATKB_CLI g' = Some cli /\
        token cli = t /\ secret_key cli = s /\
        base_uri cli = "ThreatKB/" /\
        use_https cli = negb (String.prefix "http://" h') /\
        filter_on_keys cli = FILTER_KEYS g /\
        API_KEY g' = API_KEY g /\ SECRET_KEY g' = SECRET_KEY g
  | _, _, _ =>
      initialize config_get prog g =
        Raise (Exception ("Error. Run 'python " +:+ prog +:+
                          " configure' first."))
  end.
Proof.
  unfold initialize.
  destruct (config_get "token") as [t|]; [|done].
  destruct (config_get "secret_key") as [s|]; [|done].
  destruct (config_get "api_host") as [h|]; [|done].
  destruct (endswith "/" h) eqn:E.
  - do 3 eexists. split; [done|]. simpl.
    split; [done|]. split; [by left|]. split; [done|].
    repeat split; by destruct (String.prefix "http://" h).
  - do 3 eexists. split; [done|]. simpl.
    split; [done|]. split; [by right|].
    split; [apply endswith_slash_app|].
    repeat split; by destruct (String.prefix "http://" (h +:+ "/")).
Qed.

Lemma initialize_keeps_keys `{T : Text}
    (config_get : string -> option string) prog g g' :
  initialize config_get prog g = Ok g' ->
  API_KEY g' = API_KEY g /\ SECRET_KEY g' = SECRET_KEY g.
Proof.
  unfold initialize.
  destruct (config_get "token"); [|done].
  destruct (config_get "secret_key"); [|done].
  destruct (config_get "api_host"); [|done].
  by intros [= <-].
Qed.

Lemma prefix_nil (s : string) : String.prefix EmptyString s = true.
Proof. by destruct s. Qed.

Lemma prefix_app (a s : string) : String.prefix a (a +:+ s) = true.
Proof.
  induction a as [|c a IH]; simpl; [apply prefix_nil|].
  by destruct (ascii_dec c c).
Qed.

Lemma replace_from_skip (old new a s : string) :
  replace_from old new (String.length a) (a +:+ s) =
    replace_from old new 0 s.
Proof. induction a as [|c a IH]; simpl; [by destruct s | done]. Qed.

Lemma replace_absent (old new s : string) :
  occurs old s = false -> replace old new s = s.
Proof.
  unfold replace. induction s as [|c s IH]; [done|].
  cbn [occurs]. intros [Hp Hs]%orb_false_iff.
  cbn [replace_from]. rewrite Hp. by rewrite IH.
Qed.

Lemma replace_leading (c : ascii) (old' s : string) :
  replace (String c old') EmptyString (String c old' +:+ s) =
    replace (String c old') EmptyString s.
Proof.
  unfold replace. change (String c old' +:+ s) with (String c (old' +:+ s)).
  cbn [replace_from].
  change (String c (old' +:+ s)) with (String c old' +:+ s).
  rewrite prefix_app.
  replace (String.length (String c old') - 1) with (String.length old')
    by (simpl; lia).
  apply replace_from_skip.
Qed.

(** X21. The client keeps its host in lower case and without the scheme:
    when the lower-cased host is a leading [http://] or [https://], or
    nothing, followed by a text with no scheme inside, the client keeps
    that text. *)
Theorem init_drops_scheme `{T : Text} host_ scheme h token secret_key keys
    base_uri use_https :
  lower host_ = scheme +:+ h ->
  scheme = "http://" \/ scheme = "https://" \/ scheme = EmptyString ->
  occurs "http://" h = false ->
  occurs "https://" h = false ->
  host (__init__ host_ token secret_key keys base_uri use_https) = h.
Proof.
  intros Hlower Hscheme Hhttp Hhttps. unfold __init__. cbn [host].
  rewrite Hlower.
  destruct Hscheme as [-> | [-> | ->]].
  - rewrite replace_leading, (replace_absent _ _ _ Hhttp).
    by apply replace_absent.
  - rewrite (replace_absent "http://"); [by rewrite replace_leading,
      (replace_absent _ _ _ Hhttps)|].
    simpl. exact Hhttp.
  - cbn [append]. rewrite (replace_absent _ _ _ Hhttp).
    by apply replace_absent.
Qed.

(** X22. When [configure] is the first thing a process does, its prompts
    for the token and for the secret key show ten stars whatever the
    credentials file holds: only the host is read back into a global.  The
    host prompt shows ten stars too when the file is not complete. *)
Theorem configure_prompts_hide_stored_keys `{T : Text}
    (config_get : string -> option string) prog :
  exists host_prompt,
    configure_prompts config_get prog globals_at_import =
      ["Token [**********]: "; "Secret Key [**********]: "; host_prompt] /\
    ((forall g, initialize config_get prog globals_at_import <> Ok g) ->
       host_prompt = "API Host [**********]: ").
Proof.
  unfold configure_prompts.
  destruct (initialize config_get prog globals_at_import) as [g'|e] eqn:E.
  - destruct (initialize_keeps_keys _ _ _ _ E) as [Hkey Hsecret].
    eexists. split; [by rewrite Hkey, Hsecret|].
    intros Hno. by destruct (Hno g').
  - eexists. split; [done|]. done.
Qed.

(** * Properties of [main] *)

Lemma bind_ext {A B} (m : M A) (k k' : A -> M B) (st : state) :
  (forall a st', k a st' = k' a st') -> bind m k st = bind m k' st.
Proof. intros Hk. unfold bind. destruct (m st) as [[a|e] st']; auto. Qed.

Section MainFacts.
Context `{W : World} `{T : Text}.
Variable config_get : string -> option string.
Variable configure : M unit.
Variable split_keys : string -> list string.

Lemma initialized_same_session prog g1 g2 (st : state) :
  (exists e, initialized config_get prog g1 st = (Raise e, st) /\
             initialized config_get prog g2 st = (Raise e, st)) \/
  (exists c1 c2, initialized config_get prog g1 st = (Ok c1, st) /\
                 initialized config_get prog g2 st = (Ok c2, st) /\
                 same_session c1 c2).
Proof.
  unfold initialized, bind, lift, initialize.
  destruct (config_get "token"); [|left; by eexists].
  destruct (config_get "secret_key"); [|left; by eexists].
  destruct (config_get "api_host"); [|left; by eexists].
  right. do 2 eexists. by repeat split.
Qed.

Lemma initialized_command prog g1 g2 params (st : state)
    (command : ThreatKB -> list string -> M unit) :
  (forall c c' st', same_session c c' ->
     command c params st' = command c' params st') ->
  (cli <- initialized config_get prog g1 ;;
   command cli params ;;; ret (@None Z)) st =
  (cli <- initialized config_get prog g2 ;;
   command cli params ;;; ret (@None Z)) st.
Proof.
  intros Hcommand. unfold bind at 1 3.
  destruct (initialized_same_session prog g1 g2 st)
    as [(e & -> & ->) | (c1 & c2 & -> & -> & Hsame)]; [done|].
  unfold bind. by rewrite (Hcommand c1 c2 st Hsame).
Qed.

(** X23. The option [--filter-on-keys] has no effect: whatever keys are
    given, [main] prints, sends and returns what it does without the
    option. *)
Theorem main_ignores_filter_keys argv keys params (st : state) :
  main config_get configure split_keys argv (Some keys) params st =
  main config_get configure split_keys argv None params st.
Proof.
  unfold main. apply bind_ext. intros _ st1. apply bind_ext. intros _ st2.
  destruct params as [|action args]; [done|]. cbv zeta.
  apply bind_ext. intros prog st3.
  destruct (String.eqb action "configure"); [done|].
  destruct (String.eqb action "attach").
  { apply initialized_command. intros. by apply same_session_commands. }
  destruct (String.eqb action "comment").
  { apply initialized_command. intros. by apply same_session_commands. }
  destruct (String.eqb action "release").
  { apply initialized_command. intros. by apply same_session_commands. }
  destruct (String.eqb action "search").
  { apply initialized_command. intros. by apply same_session_commands. }
  done.
Qed.

(** X24. Without a command, [main] prints the usage text and ends the run
    with status 1; nothing is sent. *)
Theorem main_without_command prog rest filter_keys_only (st : state) :
  exists text,
    help (prog :: rest) EmptyString true = Ok text /\
    main config_get configure split_keys (prog :: rest) filter_keys_only []
      st = (Ok (Some 1%Z), printed (PyStr text) st).
Proof.
  eexists. split; [reflexivity|].
  unfold main, bind. by destruct (length (prog :: rest) <? 2)%nat.
Qed.

(** X25. A command that [main] does not know is passed over in silence:
    nothing is printed, nothing is sent, and the run ends as a success. *)
Theorem main_unknown_command prog rest filter_keys_only action args
    (st : state) :
  action ∉ ["configure"; "attach"; "comment"; "release"; "search"] ->
  main config_get configure split_keys (prog :: rest) filter_keys_only
    (action :: args) st = (Ok None, st).
Proof.
  rewrite !not_elem_of_cons. intros (H1 & H2 & H3 & H4 & H5 & _).
  apply String.eqb_neq in H1, H2, H3, H4, H5.
  unfold main, bind. cbv zeta.
  destruct (length (prog :: rest) <? 2)%nat; simpl;
    by rewrite H1, H2, H3, H4, H5.
Qed.

(** X26. [attach], [comment], [release] and [search] need the credentials
    first: when the file lacks the token, the secret key or the host,
    [main] raises the error that asks to run [configure], and the state is
    as before: nothing is printed or sent. *)
Theorem main_without_credentials prog rest filter_keys_only action args
    (st : state) :
  action ∈ ["attach"; "comment"; "release"; "search"] ->
  config_get "token" = None \/ config_get "secret_key" = None \/
    config_get "api_host" = None ->
  main config_get configure split_keys (prog :: rest) filter_keys_only
    (action :: args) st =
    (Raise (Exception ("Error. Run 'python " +:+ prog +:+
                       " configure' first.")), st).
Proof.
  intros Haction Hmissing.
  assert (Hinit : forall g st',
    initialized config_get prog g st' =
      (Raise (Exception ("Error. Run 'python " +:+ prog +:+
                         " configure' first.")), st')).
  { intros g st'. unfold initialized, bind, lift, initialize.
    destruct (config_get "token"); [|done].
    destruct (config_get "secret_key"); [|done].
    destruct (config_get "api_host"); [|done].
    by destruct Hmissing as [?|[?|?]]. }
  unfold main, bind. cbv zeta.
  repeat (apply elem_of_cons in Haction as [->|Haction]);
    [| | | |by apply elem_of_nil in Haction];
    destruct (length (prog :: rest) <? 2)%nat; simpl; by rewrite Hinit.
Qed.

End MainFacts.

(** * More runs on the scripted world *)

(** X3, at the id 0. *)
Lemma falsy_id_is_no_id_witness :
  id_truthy (IdInt 0) = false /\
  get_rule (W := Demo2.rules) Demo.client (IdInt 0) import_state =
    get_rule (W := Demo2.rules) Demo.client IdNone import_state.
Proof.
  assert (H : id_truthy (IdInt 0) = false) by reflexivity.
  split; [exact H|].
  exact (proj2 (proj2 (falsy_id_is_no_id (W := Demo2.rules) Demo.client
                         (IdInt 0) import_state H))).
Defined.

(** X4, at the rule 5. *)
Lemma get_and_update_return_any_body_witness :
  id_truthy (IdInt 5) = true /\
  let m := get (W := Demo2.rules) Demo.client "/yara_rules" (IdInt 5) None in
  exists q,
    issued m import_state = [(q, serve (World := Demo2.rules) [] q)] /\
    req_method q = "GET" /\
    req_url q = url_of Demo.client ("/yara_rules" +:+ "/" +:+ "5") /\
    req_json q = PyNone /\
    forall r, serve (World := Demo2.rules) [] q = Some r ->
      status_code r <> 401%Z -> (m import_state).1 = Ok (content r).
Proof.
  assert (H : id_truthy (IdInt 5) = true) by reflexivity.
  split; [exact H|].
  exact (proj1 (get_and_update_return_any_body (W := Demo2.rules) Demo.client
                  "/yara_rules" (IdInt 5) import_state H) None).
Defined.

(** X6, at a [files] dictionary that holds one entry. *)
Lemma create_sends_files_or_json_witness :
  (7 <> _request_uri_params /\ obj Demo.with_batch _request_files = []) /\
  let m := create (W := Demo.answering 200) Demo.client "comments"
             (Some (Imm (PyInt 1))) (Some 7) in
  exists q,
    issued m Demo.with_batch =
      [(q, serve (World := Demo.answering 200) (log Demo.with_batch) q)] /\
    (obj Demo.with_batch 7 <> [] ->
       req_json q = PyNone /\ req_files q = Some (obj Demo.with_batch 7)) /\
    (obj Demo.with_batch 7 = [] -> req_json q = PyInt 1 /\ req_files q = None).
Proof.
  assert (H1 : 7 <> _request_uri_params) by discriminate.
  assert (H2 : obj Demo.with_batch _request_files = [])
    by (vm_compute; reflexivity).
  split; [exact (conj H1 H2)|].
  exact (create_sends_files_or_json (W := Demo.answering 200) Demo.client
           "comments" (PyInt 1) 7 Demo.with_batch H1 H2).
Defined.

(** X7, at a search that finds the rules 4 and 9. *)
Lemma get_rule_id_by_name_spec_witness :
  let W := Demo2.rules in
  let q := Demo2.lookup_request "/yara_rules"
             ("{" +:+ dq +:+ "name" +:+ dq +:+ ": " +:+
              dq +:+ "apt" +:+ dq +:+ "}") in
  let r := Demo.ok Demo2.found_rules in
  (serve (log import_state) q = Some r /\
   status_code r <> 401%Z /\
   json_loads (content r) = Some (PyDict Demo2.found_rules_doc) /\
   dict_get Demo2.found_rules_doc "total_count" = Some (PyInt 2)) /\
  (get_rule_id_by_name Demo.client "apt" import_state).1 =
    Ok [PyInt 4; PyInt 9].
Proof.
  intros W q r.
  assert (H1 : serve (log import_state) q = Some r)
    by (vm_compute; reflexivity).
  assert (H2 : status_code r <> 401%Z) by discriminate.
  assert (H3 : json_loads (content r) = Some (PyDict Demo2.found_rules_doc))
    by (vm_compute; reflexivity).
  assert (H4 : dict_get Demo2.found_rules_doc "total_count" = Some (PyInt 2))
    by reflexivity.
  split; [exact (conj H1 (conj H2 (conj H3 H4)))|].
  refine (proj2 (proj2 (get_rule_id_by_name_spec (W := W) Demo.client "apt"
                          import_state r Demo2.found_rules_doc (PyInt 2)
                          H1 H2 H3 H4)) eq_refl _ _ eq_refl _).
  repeat constructor.
Defined.

(** X8, at a name that two rules have. *)
Lemma delete_rule_by_name_spec_witness :
  let W := Demo2.rules in
  let run := get_rule_id_by_name Demo.client "apt" import_state in
  (run = (Ok [PyInt 4; PyInt 9], run.2) /\
   next run.2 <> _request_uri_params) /\
  exists q,
    log (delete_rule_by_name Demo.client "apt" import_state).2 =
      log run.2 ++ [(q, serve (log run.2) q)] /\
    req_method q = "PUT" /\
    req_url q = url_of Demo.client "/yara_rules/delete" /\
    req_json q = PyDict [("batch", PyList [PyInt 4; PyInt 9])] /\
    forall r, serve (log run.2) q = Some r -> status_code r <> 401%Z ->
      (delete_rule_by_name Demo.client "apt" import_state).1 =
        Ok (Some (content r)).
Proof.
  intros W run.
  assert (H1 : run = (Ok [PyInt 4; PyInt 9], run.2))
    by (vm_compute; reflexivity).
  assert (H2 : next run.2 <> _request_uri_params)
    by (vm_compute; discriminate).
  split; [exact (conj H1 H2)|].
  refine (proj2 (delete_rule_by_name_spec (W := W) Demo.client "apt"
                   import_state [PyInt 4; PyInt 9] run.2 H1 H2) _).
  discriminate.
Defined.

(** X9, at the rule 5. *)
Lemma discard_rule_spec_witness :
  let W := Demo2.rules in
  let run := get_rule Demo.client (IdInt 5) import_state in
  run = (Ok (PyDict Demo2.rule5_doc), run.2) /\
  exists q d',
    log (discard_rule Demo.client (IdInt 5) import_state).2 =
      log run.2 ++ [(q, serve (log run.2) q)] /\
    req_method q = "PUT" /\
    req_url q = url_of Demo.client ("/yara_rules" +:+ id_suffix (IdInt 5)) /\
    req_json q = PyStr (json_dumps (PyDict d')) /\
    dict_get d' "state" = Some (PyStr "Discarded") /\
    forall k, k <> "state" -> dict_get d' k = dict_get Demo2.rule5_doc k.
Proof.
  intros W run.
  assert (H : run = (Ok (PyDict Demo2.rule5_doc), run.2))
    by (vm_compute; reflexivity).
  split; [exact H|].
  exact (proj1 (discard_rule_spec (W := W) Demo.client (IdInt 5)
                  import_state (PyDict Demo2.rule5_doc) run.2 H)
           Demo2.rule5_doc eq_refl).
Defined.

(** X10, at an ip that two entities match. *)
Lemma get_c2ips_id_first_match_witness :
  let W := Demo2.two_ips in
  let q := Demo2.lookup_request "/c2ips"
             ("{" +:+ dq +:+ "ip" +:+ dq +:+ ":" +:+
              dq +:+ "198.51.100.4" +:+ dq +:+ "}") in
  let r := Demo.ok Demo2.two_matches in
  (serve (log import_state) q = Some r /\
   status_code r <> 401%Z /\
   json_loads (content r) = Some (PyDict Demo2.two_matches_doc) /\
   dict_get Demo2.two_matches_doc "total_count" = Some (PyInt 2) /\
   truthy (PyInt 2) = true /\
   dict_get Demo2.two_matches_doc "data" =
     Some (PyList [PyDict [("id", PyInt 7)]; PyDict [("id", PyInt 8)]])) /\
  (get_c2ips_id Demo.client "198.51.100.4" import_state).1 = Ok (PyInt 7).
Proof.
  intros W q r.
  assert (H1 : serve (log import_state) q = Some r)
    by (vm_compute; reflexivity).
  assert (H2 : status_code r <> 401%Z) by discriminate.
  assert (H3 : json_loads (content r) = Some (PyDict Demo2.two_matches_doc))
    by (vm_compute; reflexivity).
  assert (H4 : dict_get Demo2.two_matches_doc "total_count" = Some (PyInt 2))
    by reflexivity.
  assert (H5 : truthy (PyInt 2) = true) by reflexivity.
  assert (H6 : dict_get Demo2.two_matches_doc "data" =
     Some (PyList [PyDict [("id", PyInt 7)]; PyDict [("id", PyInt 8)]]))
    by reflexivity.
  split; [exact (conj H1 (conj H2 (conj H3 (conj H4 (conj H5 H6)))))|].
  exact (proj1 (get_c2ips_id_first_match (W := W) Demo.client "198.51.100.4"
                  import_state r Demo2.two_matches_doc (PyInt 2)
                  (PyDict [("id", PyInt 7)]) [PyDict [("id", PyInt 8)]]
                  H1 H2 H3 H4 H5 H6)).
Defined.

(** X27, at an ip that no entity matches. *)
Lemma get_c2ips_id_no_match_witness :
  let W := Demo.unknown_ip in
  let q := Demo2.lookup_request "/c2ips"
             ("{" +:+ dq +:+ "ip" +:+ dq +:+ ":" +:+
              dq +:+ "203.0.113.9" +:+ dq +:+ "}") in
  let r := Demo.ok Demo.no_match in
  let d := [("total_count", PyInt 0); ("data", PyList [])] in
  (serve (log import_state) q = Some r /\
   status_code r <> 401%Z /\
   json_loads (content r) = Some (PyDict d) /\
   dict_get d "total_count" = Some (PyInt 0) /\
   (truthy (PyInt 0) = false \/ dict_get d "data" = Some (PyList []))) /\
  (get_c2ips_id Demo.client "203.0.113.9" import_state).1 = Ok PyNone /\
  issued (get_c2ips_id Demo.client "203.0.113.9") import_state =
    [(q, Some r)].
Proof.
  intros W q r d.
  assert (H1 : serve (log import_state) q = Some r)
    by (vm_compute; reflexivity).
  assert (H2 : status_code r <> 401%Z) by discriminate.
  assert (H3 : json_loads (content r) = Some (PyDict d))
    by (vm_compute; reflexivity).
  assert (H4 : dict_get d "total_count" = Some (PyInt 0)) by reflexivity.
  assert (H5 : truthy (PyInt 0) = false \/
               dict_get d "data" = Some (PyList [])) by (left; reflexivity).
  split; [exact (conj H1 (conj H2 (conj H3 (conj H4 H5))))|].
  exact (get_c2ips_id_no_match (W := W) Demo.client "203.0.113.9"
           import_state r d (PyInt 0) H1 H2 H3 H4 H5).
Defined.

(** X11, at a recent comment followed by a null. *)
Lemma squelch_check_stops_at_first_recent_witness :
  let W := Demo2.commented Demo2.recent_then_null in
  let run := get_c2ips_comments Demo.client "198.51.100.4" import_state in
  (run = (Ok (PyList [Demo2.recent_comment; PyNone]), run.2) /\
   window_ok 7 (clock (ticks run.2)) /\
   recent 7 (clock (ticks run.2)) Demo2.recent_comment) /\
  squelch_check Demo.client "198.51.100.4" 7 import_state =
    (Ok true, ticked run.2).
Proof.
  intros W run.
  assert (H1 : run = (Ok (PyList [Demo2.recent_comment; PyNone]), run.2))
    by (vm_compute; reflexivity).
  assert (H2 : window_ok 7 (clock (ticks run.2)))
    by (vm_compute; repeat split; discriminate).
  assert (H3 : recent 7 (clock (ticks run.2)) Demo2.recent_comment).
  { exists 63903717000000000%Z. split; [vm_compute; reflexivity|].
    vm_compute. reflexivity. }
  split; [exact (conj H1 (conj H2 H3))|].
  exact (squelch_check_stops_at_first_recent (W := W) Demo.client
           "198.51.100.4" 7 import_state Demo2.recent_comment [PyNone]
           run.2 H1 H2 H3).
Defined.

(** X12, at a comment without a date followed by a recent one. *)
Lemma squelch_check_raises_on_undated_comment_witness :
  let W := Demo2.commented Demo2.undated_then_recent in
  let run := get_c2ips_comments Demo.client "198.51.100.4" import_state in
  (run = (Ok (PyList [PyDict Demo2.undated_fields; Demo2.recent_comment]),
          run.2) /\
   window_ok 7 (clock (ticks run.2)) /\
   dict_get Demo2.undated_fields "date_modified" = None) /\
  squelch_check Demo.client "198.51.100.4" 7 import_state =
    (Raise (KeyError "date_modified"), ticked run.2).
Proof.
  intros W run.
  assert (H1 : run = (Ok (PyList [PyDict Demo2.undated_fields;
                                  Demo2.recent_comment]), run.2))
    by (vm_compute; reflexivity).
  assert (H2 : window_ok 7 (clock (ticks run.2)))
    by (vm_compute; repeat split; discriminate).
  assert (H3 : dict_get Demo2.undated_fields "date_modified" = None)
    by reflexivity.
  split; [exact (conj H1 (conj H2 H3))|].
  exact (squelch_check_raises_on_undated_comment (W := W) Demo.client
           "198.51.100.4" 7 import_state Demo2.undated_fields
           [Demo2.recent_comment] run.2 H1 H2 H3).
Defined.

(** X15, at a file that can be opened. *)
Lemma attach_spec_witness :
  let W := Demo.answering 200 in
  (next import_state <> _request_uri_params /\
   readable "sample.bin" = true) /\
  exists q,
    issued (attach Demo.client ["attach"; "c2ip"; "7"; "sample.bin"])
      import_state = [(q, serve (log import_state) q)] /\
    req_method q = "POST" /\
    req_url q = url_of Demo.client "file_upload" /\
    req_json q = PyNone /\
    req_files q = Some [("entity_type", PyStr "c2ip");
                        ("entity_id", PyStr "7");
                        ("file", PyFile "sample.bin")].
Proof.
  intros W.
  assert (H1 : next import_state <> _request_uri_params) by discriminate.
  assert (H2 : readable "sample.bin" = true) by reflexivity.
  split; [exact (conj H1 H2)|].
  exact (proj2 (attach_spec (W := W) Demo.client "attach" "c2ip" "7"
                  "sample.bin" import_state H1) H2).
Defined.

(** X16, at an artifact name that is none of the four. *)
Lemma comment_sends_unknown_artifacts_witness :
  let W := Demo.answering 200 in
  obj import_state create_files = [] /\
  exists q entity_type,
    issued (comment Demo.client ["comment"; "domain"; "42"; "seen"])
      import_state = [(q, serve (log import_state) q)] /\
    req_method q = "POST" /\
    req_url q = url_of Demo.client "comments" /\
    req_json q =
      PyStr (json_dumps (PyDict [("comment", PyStr "seen");
                                 ("entity_type", entity_type);
                                 ("entity_id", PyStr "42")])) /\
    (entity_type = PyNone <->
     "domain" ∉ ["yara_rule"; "c2dns"; "c2ip"; "task"]).
Proof.
  intros W.
  assert (H : obj import_state create_files = [])
    by (vm_compute; reflexivity).
  split; [exact H|].
  exact (comment_sends_unknown_artifacts (W := W) Demo.client "comment"
           "domain" "42" "seen" import_state H).
Defined.

(** X18, at two clients of which one has filter keys. *)
Lemma commands_ignore_filter_keys_witness :
  let W := Demo.answering 200 in
  same_session Demo.client Demo2.other_client /\
  comment Demo.client ["comment"; "c2ip"; "7"; "seen"] import_state =
    comment Demo2.other_client ["comment"; "c2ip"; "7"; "seen"] import_state.
Proof.
  intros W.
  assert (H : same_session Demo.client Demo2.other_client)
    by (by repeat split).
  split; [exact H|].
  exact (proj1 (proj2 (commands_ignore_filter_keys (W := W) Demo.client
                         Demo2.other_client
                         ["comment"; "c2ip"; "7"; "seen"] import_state H))).
Defined.

(** X28, at a client without filter keys. *)
Lemma filter_output_without_keys_witness :
  let W := Demo.unknown_ip in
  filter_on_keys Demo2.other_client = None /\
  (filter_output Demo2.other_client Demo.one_rule = PyStr Demo.one_rule \/
   filter_output Demo2.other_client Demo.one_rule = PyList []) /\
  (filter_output Demo2.other_client Demo.one_rule = PyList [] <->
   exists v, json_loads Demo.one_rule = Some v /\
             (v = PyList [] \/ v = PyStr EmptyString)).
Proof.
  intros W.
  assert (H : filter_on_keys Demo2.other_client = None) by reflexivity.
  split; [exact H|].
  exact (filter_output_without_keys (W := W) Demo2.other_client
           Demo.one_rule H).
Defined.

(** An empty sequence and an empty string both come back as the empty
    list. *)
Example filter_output_of_empty_documents :
  let W := Demo.world []
             [("[]", PyList []); (Demo.quoted EmptyString, PyStr EmptyString)]
             Demo.dates Demo.now in
  filter_output Demo2.other_client "[]" = PyList [] /\
  filter_output Demo2.other_client (Demo.quoted EmptyString) = PyList [].
Proof. by split. Qed.

(** X21, at a host stored with its scheme in capitals. *)
Lemma init_drops_scheme_witness :
  let T := Demo2.ascii_text in
  (lower "HTTP://Example.org:9000/" = "http://" +:+ "example.org:9000/" /\
   ("http://" = "http://" \/ "http://" = "https://" \/
      "http://" = EmptyString) /\
   occurs "http://" "example.org:9000/" = false /\
   occurs "https://" "example.org:9000/" = false) /\
  host (__init__ "HTTP://Example.org:9000/" "t0k3n" "s3cr3t" None None
          (Some true)) = "example.org:9000/".
Proof.
  intros T.
  assert (H0 : lower "HTTP://Example.org:9000/" =
               "http://" +:+ "example.org:9000/") by reflexivity.
  assert (H1 : "http://" = "http://" \/ "http://" = "https://" \/
               "http://" = EmptyString) by (by left).
  assert (H2 : occurs "http://" "example.org:9000/" = false) by reflexivity.
  assert (H3 : occurs "https://" "example.org:9000/" = false) by reflexivity.
  split; [exact (conj H0 (conj H1 (conj H2 H3)))|].
  exact (init_drops_scheme (T := T) "HTTP://Example.org:9000/" "http://"
           "example.org:9000/" "t0k3n" "s3cr3t" None None (Some true)
           H0 H1 H2 H3).
Defined.

(** X25, at a misspelt command. *)
Lemma main_unknown_command_witness :
  let W := Demo.answering 200 in
  ("comments" ∉ ["configure"; "attach"; "comment"; "release"; "search"]) /\
  main (T := Demo2.ascii_text) Demo2.stored (ret tt) (fun s => [s])
    ["threatkb.py"; "comments"] None
    ["comments"; "c2ip"; "7"; "seen"] import_state = (Ok None, import_state).
Proof.
  intros W.
  assert (H : "comments" ∉
              ["configure"; "attach"; "comment"; "release"; "search"]).
  { rewrite !not_elem_of_cons. repeat split; try discriminate.
    apply not_elem_of_nil. }
  split; [exact H|].
  exact (main_unknown_command (W := W) (T := Demo2.ascii_text) Demo2.stored (ret tt) (fun s => [s])
           "threatkb.py" ["comments"] None "comments" ["c2ip"; "7"; "seen"]
           import_state H).
Defined.

(** X26, at a credentials file without a secret key. *)
Lemma main_without_credentials_witness :
  let W := Demo.answering 200 in
  ("search" ∈ ["attach"; "comment"; "release"; "search"] /\
   (Demo2.incomplete "token" = None \/ Demo2.incomplete "secret_key" = None \/
    Demo2.incomplete "api_host" = None)) /\
  main (T := Demo2.ascii_text) Demo2.incomplete (ret tt) (fun s => [s])
    ["threatkb.py"; "search"] None
    ["search"; "tag"; "apt"] import_state =
    (Raise (Exception "Error. Run 'python threatkb.py configure' first."),
     import_state).
Proof.
  intros W.
  assert (H1 : "search" ∈ ["attach"; "comment"; "release"; "search"])
    by (do 3 right; left).
  assert (H2 : Demo2.incomplete "token" = None \/
               Demo2.incomplete "secret_key" = None \/
               Demo2.incomplete "api_host" = None)
    by (right; left; reflexivity).
  split; [exact (conj H1 H2)|].
  exact (main_without_credentials (W := W) (T := Demo2.ascii_text)
           Demo2.incomplete (ret tt)
           (fun s => [s]) "threatkb.py" ["search"] None "search"
           ["tag"; "apt"] import_state H1 H2).
Defined.

(** A whole run: the stored host has its scheme in capitals, so that the
    request goes out over https. *)
Example main_search_over_https :
  let run := main (W := Demo.answering 200) (T := Demo2.ascii_text)
               Demo2.stored (ret tt)
               (fun s => [s]) ["threatkb.py"; "search"; "tag"; "apt"] None
               ["search"; "tag"; "apt"] import_state in
  (req_url <$> (log run.2).*1) =
    ["https://example.org:9000/ThreatKB/search"] /\
  (req_params <$> (log run.2).*1) =
    [[("tag", PyStr "apt"); ("token", PyStr "t0k3n");
      ("secret_key", PyStr "s3cr3t")]].
Proof. vm_compute. by split. Qed.

(** A scheme inside the host is removed as well. *)
Example init_removes_inner_scheme :
  host (__init__ (H := Demo2.ascii_text) "proxy.local/http://inner" "t" "s"
          None None None) = "proxy.local/inner".
Proof. reflexivity. Qed.

(** Characters, not bytes, are counted and kept. *)
Example masked_counts_characters :
  masked (Some "éabcd") = "**bcd" /\ masked (Some "ééé") = "ééé".
Proof. by split. Qed.
